(** * OpenCTI MCP server: observable classification, matching and get-or-create

    A shallow embedding of the decision logic of [opencti_mcp]:
    - [observables.py]: [infer_observable_type], [get_hash_algorithm] and the
      two regular expressions they rely on;
    - [client.py]: [graphql_query], [find_observable_by_value],
      [_match_observable_node], the creation helpers and [ask_enrichment];
    - [server.py]: [_normalize_observable_type], [_format_observable_result],
      the tools [create_observable] and [ask_virustotal_enrichment].

    Conventions.
    - A Python [str] is a [string]; a character is a code point below 256
      (Latin-1), on which [str.lower], [str.strip] and [len] are modelled
      exactly.
    - A raised exception is a value of [exn]; fallible code returns
      [result A].
    - The standard library parser [ipaddress.ip_address] and the HTTP
      endpoint behind [httpx] are not part of the repository: they are
      interfaces ([IpAddress], [Remote]) over which the code is generic.
    - Decoded JSON is typed by the GraphQL selection that produced it: a
      string-typed member is a [jstr] (JSON [null] or a string), and an
      object with such members is a [gmap string jstr].
    - A tool call runs in a [world]: the state of the platform and the
      list of requests sent to it so far.  [context.log] only writes to the
      caller's log and is left out. *)

From Stdlib Require Import String Ascii List Bool Arith Lia ZArith NArith DecimalString.
From stdpp Require Import base strings gmap.
Import ListNotations.

Local Open Scope string_scope.
Local Open Scope list_scope.

(** ** Python built-ins used by the source *)

Module Py.

(** Exceptions raised along the modelled paths, by class. *)
Inductive exn :=
| ValueError (msg : string)
| KeyError (key : string)
| AttributeError (msg : string)
| TypeError (msg : string)
| HTTPError (msg : string)            (* any exception raised by httpx *)
| ConfigurationError (msg : string)
| OpenCTIAPIError (msg : string)
| ToolError (msg : string).

Inductive result (A : Type) :=
| Ok (a : A)
| Raise (e : exn).
Arguments Ok {A} a.
Arguments Raise {A} e.

Definition code (c : ascii) : N := N_of_ascii c.

(** The line feed, ["\n"]. *)
Definition LF : ascii := "010"%char.

Definition between (lo hi : N) (c : ascii) : bool :=
  (lo <=? code c)%N && (code c <=? hi)%N.

(** [str.isspace] on one character: the code points below 256 that
    [str.strip] removes. *)
Definition isspace (c : ascii) : bool :=
  between 9 13 c || between 28 32 c || (code c =? 133)%N || (code c =? 160)%N.

(** [str.lower] on one character: [A-Z] and the Latin-1 capitals
    U+00C0..U+00DE (U+00D7 is the multiplication sign) move up by 32. *)
Definition lower_char (c : ascii) : ascii :=
  if between 65 90 c || (between 192 222 c && negb (code c =? 215)%N)
  then ascii_of_N (code c + 32)
  else c.

Fixpoint lower (s : string) : string :=
  match s with
  | EmptyString => EmptyString
  | String c r => String (lower_char c) (lower r)
  end.

Fixpoint lstrip (s : string) : string :=
  match s with
  | EmptyString => EmptyString
  | String c r => if isspace c then lstrip r else s
  end.

Fixpoint rstrip (s : string) : string :=
  match s with
  | EmptyString => EmptyString
  | String c r =>
      match rstrip r with
      | EmptyString => if isspace c then EmptyString else String c EmptyString
      | r' => String c r'
      end
  end.

(** [s.strip()] *)
Definition strip (s : string) : string := rstrip (lstrip s).

(** [len(s)] *)
Definition len (s : string) : nat := String.length s.

(** [not s] for a [str] *)
Definition falsy (s : string) : bool :=
  match s with EmptyString => true | _ => false end.

(** [str(n)] for a non-negative [int] *)
Definition str_of_nat (n : nat) : string :=
  NilEmpty.string_of_uint (Nat.to_uint n).

Fixpoint all_chars (p : ascii -> bool) (s : string) : bool :=
  match s with
  | EmptyString => true
  | String c r => p c && all_chars p r
  end.

(** [s.split(sep)] for a one-character separator. *)
Fixpoint split (sep : ascii) (s : string) : list string :=
  match s with
  | EmptyString => [EmptyString]
  | String c r =>
      if Ascii.eqb c sep then EmptyString :: split sep r
      else match split sep r with
           | [] => [String c EmptyString]
           | w :: ws => String c w :: ws
           end
  end.

End Py.

(** ** The fragment of [re] used by the source *)

Module Re.

(** Patterns.  [Rep r lo hi] is [r{lo,hi}]; [hi = None] means unbounded, so
    [r+] is [Rep r 1 None] and [r*] is [Rep r 0 None].  Look-arounds are the
    one-character negative ones the source uses. *)
Inductive regex :=
| Bol                               (* ^ *)
| Eol                               (* $ *)
| Lit (c : ascii)                   (* an escaped or plain character *)
| Cls (ranges : list (ascii * ascii))   (* [a-bc-d...] *)
| NotAhead (c : ascii)              (* (?!c) *)
| NotBehind (c : ascii)             (* (?<!c) *)
| Cat (r1 r2 : regex)
| Rep (r : regex) (lo : nat) (hi : option nat).

(** A position in the subject: the character just before it, if any, and
    the text still ahead. *)
Record pos := Pos { before : option ascii; ahead : string }.

Definition in_class (ranges : list (ascii * ascii)) (c : ascii) : bool :=
  existsb (fun '(lo, hi) => Py.between (Py.code lo) (Py.code hi) c) ranges.

(** Without [re.MULTILINE], [$] holds at the end of the subject and just
    before a line feed that ends it. *)
Definition at_eol (s : string) : bool :=
  match s with
  | EmptyString => true
  | String c EmptyString => Ascii.eqb c Py.LF
  | _ => false
  end.

Definition eat (ok : ascii -> bool) (p : pos) : list pos :=
  match ahead p with
  | String a s => if ok a then [Pos (Some a) s] else []
  | EmptyString => []
  end.

(** Positions reached by at most [n] rounds of [step]. *)
Fixpoint at_most (step : pos -> list pos) (n : nat) (p : pos) : list pos :=
  match n with
  | 0 => [p]
  | S n' => flat_map (at_most step n') (step p) ++ [p]
  end.

(** Positions reached by [lo] mandatory rounds of [step] followed by at
    most [n] optional ones. *)
Fixpoint iterate (step : pos -> list pos) (lo n : nat) (p : pos) : list pos :=
  match lo with
  | 0 => at_most step n p
  | S lo' => flat_map (iterate step lo' n) (step p)
  end.

(** All positions at which a match of [r] started at [p] can end.  Only
    the existence of a match is observed by the source ([is not None]), so
    the order in which a backtracking engine would try them is immaterial.
    Every round of the two unbounded repetitions of the source reads at
    least one character, so one optional round per character still ahead
    is all they can use. *)
Fixpoint run (r : regex) (p : pos) : list pos :=
  match r with
  | Bol => match before p with None => [p] | Some _ => [] end
  | Eol => if at_eol (ahead p) then [p] else []
  | Lit c => eat (Ascii.eqb c) p
  | Cls ranges => eat (in_class ranges) p
  | NotAhead c =>
      match ahead p with
      | String a _ => if Ascii.eqb a c then [] else [p]
      | EmptyString => [p]
      end
  | NotBehind c =>
      match before p with
      | Some a => if Ascii.eqb a c then [] else [p]
      | None => [p]
      end
  | Cat r1 r2 => flat_map (run r2) (run r1 p)
  | Rep r lo hi =>
      let optional :=
        match hi with
        | Some h => h - lo
        | None => String.length (ahead p)
        end in
      iterate (run r) lo optional p
  end.

(** [pattern.match(s) is not None] *)
Definition matches (r : regex) (s : string) : bool :=
  match run r (Pos None s) with
  | [] => false
  | _ :: _ => true
  end.

Module Notations.
Infix ">>" := Cat (at level 60, right associativity).
End Notations.

End Re.

(** ** observables.py *)

Module Observables.
Import Py Re Re.Notations.

Inductive ObservableKind := KindIp | KindDomain | KindHash.

(** The literal behind each member of [ObservableKind]. *)
Definition kind_name (k : ObservableKind) : string :=
  match k with
  | KindIp => "ip"
  | KindDomain => "domain"
  | KindHash => "hash"
  end.

Definition OBSERVABLE_TYPES (k : ObservableKind) : list string :=
  match k with
  | KindIp => ["IPv4-Addr"; "IPv6-Addr"]
  | KindDomain => ["Domain-Name"]
  | KindHash => ["Artifact"; "StixFile"]
  end.

Definition HASH_LENGTHS : list nat := [32; 40; 64; 128].

Definition hex_digit : regex := Cls [("A", "F"); ("a", "f"); ("0", "9")]%char.
Definition label_char : regex :=
  Cls [("A", "Z"); ("a", "z"); ("0", "9"); ("-", "-")]%char.
Definition letter : regex := Cls [("A", "Z"); ("a", "z")]%char.

(** [^[A-Fa-f0-9]+$] *)
Definition HASH_REGEX : regex :=
  Bol >> Rep hex_digit 1 None >> Eol.

(** [(?!-)[A-Za-z0-9-]{1,63}(?<!-)] *)
Definition label : regex :=
  NotAhead "-" >> Rep label_char 1 (Some 63) >> NotBehind "-".

(** [^(?!-)[A-Za-z0-9-]{1,63}(?<!-)(?:\.(?!-)[A-Za-z0-9-]{1,63}(?<!-))*\.[A-Za-z]{2,63}$] *)
Definition DOMAIN_REGEX : regex :=
  Bol >> label >> Rep (Lit "." >> label) 0 None
      >> Lit "." >> Rep letter 2 (Some 63) >> Eol.

(** [ipaddress.ip_address]: the version of the address a string denotes,
    [None] standing for its [ValueError]. *)
Inductive ip_version := V4 | V6.

Class IpAddress := ip_address : string -> option ip_version.

Definition algorithm_map : gmap nat string :=
  {[ 32 := "MD5"; 40 := "SHA-1"; 64 := "SHA-256"; 128 := "SHA-512" ]}.

(** The message ends with the text of [sorted(algorithm_map.keys())]. *)
Definition get_hash_algorithm (hash_value : string) : result string :=
  let length := len hash_value in
  match algorithm_map !! length with
  | None =>
      Raise (ValueError ("Invalid hash length " +:+ str_of_nat length
                         +:+ ". Expected one of: [32, 40, 64, 128]"))
  | Some algorithm => Ok algorithm
  end.

Definition _is_hash (value : string) : bool :=
  let lower := lower value in
  existsb (Nat.eqb (len lower)) HASH_LENGTHS && matches HASH_REGEX lower.

Definition _is_domain (value : string) : bool :=
  matches DOMAIN_REGEX value.

Section Classifier.
Context `{IpAddress}.

Definition _is_ip_address (value : string) : bool :=
  match ip_address value with
  | Some _ => true
  | None => false
  end.

Definition infer_observable_type (value : string) : option ObservableKind :=
  let candidate := strip value in
  if falsy candidate then None
  else if _is_ip_address candidate then Some KindIp
  else if _is_hash candidate then Some KindHash
  else if _is_domain candidate then Some KindDomain
  else None.

End Classifier.

End Observables.

(** ** Decoded JSON, as typed by the GraphQL selections of client.py *)

Module Json.
Import Py.

(** A string-typed member: JSON [null] (Python [None]) or a string. *)
Inductive jstr := JNull | JStr (s : string).

#[global] Instance jstr_eq_dec : EqDecision jstr.
Proof. solve_decision. Defined.

(** A member of another type: missing from the object, [null], or there. *)
Inductive member (A : Type) := Absent | Null | Val (a : A).
Arguments Absent {A}.
Arguments Null {A}.
Arguments Val {A} a.

(** [str(v)] *)
Definition str (v : jstr) : string :=
  match v with
  | JNull => "None"
  | JStr s => s
  end.

(** [d.get(key)] and [d.get(key, default)] on an object of string-typed
    members. *)
Definition get (d : gmap string jstr) (key : string) : jstr :=
  match d !! key with
  | Some v => v
  | None => JNull
  end.

Definition get_or (d : gmap string jstr) (key : string) (dflt : string) : jstr :=
  match d !! key with
  | Some v => v
  | None => JStr dflt
  end.

(** [a or b] where [a] is a string-typed member and [b] a [str]: the result
    is [a] when it is a non-empty string and [b] otherwise. *)
Definition or_ (a : jstr) (b : string) : string :=
  match a with
  | JStr (String c s) => String c s
  | _ => b
  end.

(** An observable node: its string-typed members ([id], [standard_id],
    [entity_type], [observable_value], [value], [name], [url]) and its
    [hashes] member, a list of objects with members [algorithm] and
    [hash]. *)
Record node := Node {
  attrs : gmap string jstr;
  hashes : member (list (gmap string jstr));
}.

Definition empty_node : node := Node ∅ Absent.

(** [not node] for a [dict] *)
Definition node_falsy (n : node) : bool :=
  bool_decide (attrs n = ∅) &&
  match hashes n with Absent => true | _ => false end.

(** An element of [edges]: [null], or an object whose [node] member is
    missing, [null], or a node. *)
Inductive edge := EdgeNull | Edge (node : member node).

Record container := Container { edges : member (list edge) }.

Record edit_block := EditBlock { askEnrichment : member (gmap string jstr) }.

(** The [data] member of a GraphQL payload. *)
Record data := Data {
  stixCyberObservables : member container;
  stixCyberObservableAdd : member node;
  stixCoreObjectEdit : member edit_block;
}.

Definition empty_data : data := Data Absent Absent Absent.

End Json.

(** ** The remote platform and the effects of a tool call *)

Module Effects.
Import Py Json.

(** A GraphQL operation of client.py together with its variables. *)
Inductive request :=
| FindObservables (search : string) (types : list string) (first : Z)
| CreateDomain (type value : string)
| CreateIPv4 (type value : string)
| CreateIPv6 (type value : string)
| CreateArtifact (type algorithm hash : string)
| AskEnrichment (id : jstr) (connectorId : string).

(** What [client.post] and [response.json()] give back. *)
Inductive reply :=
| Failed (msg : string)
    (* httpx raised: no connection, timeout, or raise_for_status *)
| NotJson (snippet : string)
    (* the body is not JSON; [snippet] is [_truncate_text(response.text)] *)
| Payload (errors : option string) (data : member data).
    (* a JSON object; [errors] is [Some] of the text of a truthy
       "errors" member *)

Class Remote := {
  platform : Type;
  respond : platform -> request -> reply * platform;
}.

Section World.
Context `{Remote}.

(** The state a tool call runs in: the platform, and the requests sent
    to it so far, oldest first. *)
Record world := World { remote : platform; sent : list request }.

Definition M (A : Type) : Type := world -> result A * world.

Definition ret {A} (a : A) : M A := fun w => (Ok a, w).

Definition raise {A} (e : exn) : M A := fun w => (Raise e, w).

Definition lift {A} (r : result A) : M A := fun w => (r, w).

Definition bind {A B} (m : M A) (k : A -> M B) : M B :=
  fun w =>
    match m w with
    | (Ok a, w') => k a w'
    | (Raise e, w') => (Raise e, w')
    end.

(** [try: m  except OpenCTIAPIError as exc: raise handler(str(exc))] *)
Definition except_api {A} (m : M A) (handler : string -> exn) : M A :=
  fun w =>
    match m w with
    | (Raise (OpenCTIAPIError msg), w') => (Raise (handler msg), w')
    | other => other
    end.

(** One round trip to the platform. *)
Definition post (rq : request) : M reply :=
  fun w =>
    let '(rep, pf) := respond (remote w) rq in
    (Ok rep, World pf (sent w ++ [rq])).

End World.

Module Notations.
Notation "'let*' x := m 'in' k" := (bind m (fun x => k))
  (at level 10, x name, m at level 100, k at level 200).
End Notations.

End Effects.

(** ** client.py *)

Module Client.
Import Py Json Effects Effects.Notations Observables.

(** The list [observed_values] that [_match_observable_node] builds from a
    node. *)
Definition observed_values (node : Json.node) : list string :=
  [ lower (str (get_or (attrs node) "observable_value" ""));
    lower (str (get_or (attrs node) "value" ""));
    lower (str (get_or (attrs node) "name" "")) ].

(** [_match_observable_node]: the node of [edge] when it matches [target],
    Python [None] otherwise. *)
Definition _match_observable_node (edge : Json.edge) (target : string)
  : option node :=
  (* node = (edge or {}).get("node") or {} *)
  let node :=
    match edge with
    | Edge (Val node) => node
    | _ => empty_node
    end in
  if node_falsy node then None
  else
    if existsb (String.eqb target) (observed_values node) then Some node
    else
      (* hashes = node.get("hashes") or [] *)
      let hashes :=
        match hashes node with
        | Val entries => entries
        | _ => []
        end in
      if existsb
           (fun entry => String.eqb (lower (str (get_or entry "hash" ""))) target)
           hashes
      then Some node
      else None.

(** The loop of [find_observable_by_value]: the first edge for which
    [_match_observable_node] returns a node ends the scan. *)
Fixpoint scan_edges (edges : list edge) (target : string) : option node :=
  match edges with
  | [] => None
  | edge :: rest =>
      match _match_observable_node edge target with
      | Some node => Some node
      | None => scan_edges rest target
      end
  end.

Section Calls.
Context `{IpAddress} `{Remote}.

Definition graphql_query (rq : request) : M (option data) :=
  let* rep := post rq in
  match rep with
  | Failed msg => raise (HTTPError msg)
  | NotJson snippet =>
      raise (OpenCTIAPIError
               ("Invalid JSON response from OpenCTI GraphQL API: " +:+ snippet))
  | Payload (Some errors) _ =>
      raise (OpenCTIAPIError ("GraphQL error: " +:+ errors))
  | Payload None d =>
      (* payload.get("data", {}) *)
      ret match d with
          | Absent => Some empty_data
          | Null => None
          | Val d => Some d
          end
  end.

(** [d.get(key, dflt)] and [d.get(key)] where [d] may be Python [None],
    on which [.get] raises. *)
Definition get_member {R A} (d : option R) (key : R -> member A) (dflt : A)
  : M (option A) :=
  match d with
  | None => raise (AttributeError "'NoneType' object has no attribute 'get'")
  | Some r =>
      ret match key r with
          | Absent => Some dflt
          | Null => None
          | Val a => Some a
          end
  end.

Definition get_member_opt {R A} (d : option R) (key : R -> member A)
  : M (option A) :=
  match d with
  | None => raise (AttributeError "'NoneType' object has no attribute 'get'")
  | Some r =>
      ret match key r with
          | Val a => Some a
          | _ => None
          end
  end.

Definition find_observable_by_value
  (value : string) (types : list string) (limit : Z) : M (option node) :=
  let* data := graphql_query (FindObservables value types limit) in
  let* container := get_member data stixCyberObservables (Container Absent) in
  let* edges := get_member container edges [] in
  let target := lower value in
  match edges with
  | None => raise (TypeError "'NoneType' object is not iterable")
  | Some edges => ret (scan_edges edges target)
  end.

Definition ask_enrichment (entity_id : jstr) (connector_id : string) : M jstr :=
  let* data := graphql_query (AskEnrichment entity_id connector_id) in
  let* edit_block := get_member data stixCoreObjectEdit (EditBlock Absent) in
  let* enrichment := get_member_opt edit_block askEnrichment in
  match enrichment with
  | Some enrichment =>
      match enrichment !! "id" with
      | Some id => ret id
      | None =>
          raise (OpenCTIAPIError
                   "Failed to request enrichment for the observable.")
      end
  | None =>
      raise (OpenCTIAPIError "Failed to request enrichment for the observable.")
  end.

Definition _execute_create_mutation (mutation : request) : M node :=
  let* data := graphql_query mutation in
  let* created := get_member_opt data stixCyberObservableAdd in
  match created with
  | Some created =>
      if node_falsy created || negb (bool_decide (is_Some (attrs created !! "id")))
      then raise (OpenCTIAPIError "Failed to create observable.")
      else ret created
  | None => raise (OpenCTIAPIError "Failed to create observable.")
  end.

Definition _create_domain_observable (value : string) : M node :=
  _execute_create_mutation (CreateDomain "Domain-Name" value).

Definition _create_ip_observable (value : string) : M node :=
  match ip_address value with
  | None => raise (OpenCTIAPIError ("Invalid IP address value: " +:+ value))
  | Some V4 => _execute_create_mutation (CreateIPv4 "IPv4-Addr" value)
  | Some V6 => _execute_create_mutation (CreateIPv6 "IPv6-Addr" value)
  end.

Definition _create_hash_observable (value : string) : M node :=
  match get_hash_algorithm value with
  | Raise (ValueError msg) => raise (OpenCTIAPIError msg)
  | Raise e => raise e
  | Ok algo => _execute_create_mutation (CreateArtifact "Artifact" algo value)
  end.

Definition create_observable (value : string) (observable_type : ObservableKind)
  : M node :=
  match observable_type with
  | KindDomain => _create_domain_observable value
  | KindIp => _create_ip_observable value
  | KindHash => _create_hash_observable value
  end.

End Calls.

End Client.

(** ** config.py and server.py *)

Module Server.
Import Py Json Effects Effects.Notations Observables.

(** The settings the tools read; [timeout_seconds] only reaches httpx. *)
Record OpenCTISettings := Settings {
  base_url : string;
  api_token : string;
  verify_ssl : bool;
  virustotal_connector_id : option string;
}.

(** The outcome of the cached [get_settings()]: the settings, or its
    [ConfigurationError]. *)
Class Config := get_settings : result OpenCTISettings.

Record observable_view := ObservableView {
  id : jstr;
  entity_type : jstr;
  value : string;
}.

Record gateway_result := GatewayResult {
  status : string;
  observable : observable_view;
}.

Record enrichment_result := EnrichmentResult {
  work_id : jstr;
  connector_id : string;
  enriched : observable_view;
}.

(** [wrap_api_error(exc, fallback_message)] for an exception whose
    [str()] is [msg]. *)
Definition wrap_api_error (fallback_message : string) (msg : string) : exn :=
  let message := if falsy (strip msg) then fallback_message else strip msg in
  ToolError message.

Definition _format_observable_result
  (observable : node) (original_value : string) (status : string)
  : result gateway_result :=
  match attrs observable !! "id" with
  | None => Raise (KeyError "id")
  | Some id =>
      Ok (GatewayResult status
            (ObservableView id
               (get (attrs observable) "entity_type")
               (or_ (get (attrs observable) "observable_value")
                  (or_ (get (attrs observable) "value")
                     (or_ (get (attrs observable) "name")
                        original_value)))))
  end.

(** The member of [ObservableKind] a string names, if any:
    [normalized in OBSERVABLE_TYPES]. *)
Definition kind_of_name (s : string) : option ObservableKind :=
  if String.eqb s "ip" then Some KindIp
  else if String.eqb s "domain" then Some KindDomain
  else if String.eqb s "hash" then Some KindHash
  else None.

Section Tools.
Context `{IpAddress} `{Remote} `{Config}.

Definition _build_client : result OpenCTISettings :=
  match get_settings with
  | Raise (ConfigurationError msg) => Raise (ToolError msg)
  | other => other
  end.

Definition _normalize_observable_type
  (value : string) (value_type : option string) : result ObservableKind :=
  match value_type with
  | Some (String c s) =>
      let normalized := lower (String c s) in
      match kind_of_name normalized with
      | None =>
          Raise (ToolError "Parameter 'value_type' must be one of: ip, domain, hash.")
      | Some kind => Ok kind
      end
  | _ =>
      match infer_observable_type value with
      | None =>
          Raise (ToolError
                   "Unable to infer value type. Please provide 'value_type' as ip, domain, or hash.")
      | Some inferred => Ok inferred
      end
  end.

Definition create_observable (value : string) (value_type : option string)
  : M gateway_result :=
  if falsy value || falsy (strip value)
  then raise (ToolError "Parameter 'value' must be a non-empty string.")
  else
    let* normalized_type := lift (_normalize_observable_type value value_type) in
    let* client := lift _build_client in
    let allowed_types := OBSERVABLE_TYPES normalized_type in
    let* existing :=
      except_api
        (Client.find_observable_by_value (strip value) allowed_types 10)
        (wrap_api_error "Failed to search for observable in OpenCTI.") in
    match existing with
    | Some existing => lift (_format_observable_result existing value "exists")
    | None =>
        let* created :=
          except_api
            (Client.create_observable (strip value) normalized_type)
            (wrap_api_error "Failed to create observable in OpenCTI.") in
        lift (_format_observable_result created value "created")
    end.

Definition ask_virustotal_enrichment (value : string) (value_type : option string)
  : M enrichment_result :=
  if falsy value || falsy (strip value)
  then raise (ToolError "Parameter 'value' must be a non-empty string.")
  else
    let* settings := lift get_settings in
    match virustotal_connector_id settings with
    | Some (String c s) =>
        let connector := String c s in
        let* normalized_type := lift (_normalize_observable_type value value_type) in
        let* client := lift _build_client in
        let allowed_types := OBSERVABLE_TYPES normalized_type in
        let* observable :=
          except_api
            (Client.find_observable_by_value (strip value) allowed_types 10)
            (wrap_api_error "Failed to search for observable in OpenCTI.") in
        match observable with
        | None =>
            raise (ToolError
                     ("No observable found matching value '" +:+ value
                      +:+ "' for type '" +:+ kind_name normalized_type +:+ "'."))
        | Some observable =>
            match attrs observable !! "id" with
            | None => raise (KeyError "id")
            | Some observable_id =>
                let* work_id :=
                  except_api
                    (Client.ask_enrichment observable_id connector)
                    (wrap_api_error "Failed to request enrichment from OpenCTI.") in
                let observable_value :=
                  or_ (get (attrs observable) "observable_value")
                    (or_ (get (attrs observable) "value")
                       (or_ (get (attrs observable) "name") value)) in
                ret (EnrichmentResult work_id connector
                       (ObservableView observable_id
                          (get (attrs observable) "entity_type")
                          observable_value))
            end
        end
    | _ =>
        raise (ToolError
                 "VirusTotal connector not configured. Set VIRUSTOTAL_CONNECTOR_ID environment variable.")
    end.

End Tools.

End Server.

(** ** Vocabulary of the specification *)

Module Terms.
Import Py Re Re.Notations Observables Json Effects Client Server.

(** *** Reading text with the matcher *)

(** The character before the position reached by reading [w] from a
    position whose previous character is [b]. *)
Fixpoint last_char (b : option ascii) (w : string) : option ascii :=
  match w with
  | EmptyString => b
  | String a r => last_char (Some a) r
  end.

(** [reads w p q]: [q] is [p] moved forward over the text [w]. *)
Definition reads (w : string) (p q : pos) : Prop :=
  ahead p = w +:+ ahead q /\ before q = last_char (before p) w.

(** [rounds one k w]: [w] is the concatenation of [k] texts, each of which
    satisfies [one]. *)
Inductive rounds (one : string -> Prop) : nat -> string -> Prop :=
| rounds_O : rounds one 0 EmptyString
| rounds_S k u v : one u -> rounds one k v -> rounds one (S k) (u +:+ v).

(** *** The classifier *)

(** A hexadecimal character: one of [A-Fa-f0-9]. *)
Definition is_hex (c : ascii) : bool :=
  between 65 70 c || between 97 102 c || between 48 57 c.

Definition is_letter (c : ascii) : bool :=
  between 65 90 c || between 97 122 c.

Definition is_label_char (c : ascii) : bool :=
  is_letter c || between 48 57 c || Ascii.eqb c "-".

Definition starts_with (c : ascii) (s : string) : bool :=
  match s with
  | String a _ => Ascii.eqb a c
  | EmptyString => false
  end.

Definition ends_with (c : ascii) (s : string) : bool :=
  match last_char None s with
  | Some a => Ascii.eqb a c
  | None => false
  end.

(** The dot-separated labels of a string, and the last of them. *)
Definition labels (s : string) : list string := split "." s.


(** A label: 1 to 63 characters of [A-Za-z0-9-], no hyphen at either end. *)
Definition label_ok (l : string) : Prop :=
  1 <= len l <= 63 /\ all_chars is_label_char l = true /\
  starts_with "-" l = false /\ ends_with "-" l = false.

(** A final label: 2 to 63 letters. *)
Definition tld_ok (l : string) : Prop :=
  2 <= len l <= 63 /\ all_chars is_letter l = true.

(** A host name: a label, any number of further labels, and a final label,
    separated by dots. *)
Definition hostname (s : string) : Prop :=
  exists first more tld,
    labels s = first :: more ++ [tld] /\
    label_ok first /\ Forall label_ok more /\ tld_ok tld.

(** The text of the labels after the first, each behind its dot. *)
Fixpoint dotted (ws : list string) : string :=
  match ws with
  | [] => EmptyString
  | w :: more => String "." w +:+ dotted more
  end.

Definition dot_label (u : string) : Prop :=
  exists w, label_ok w /\ u = String "." w.

Definition dotless (w : string) : Prop :=
  all_chars (fun c => negb (Ascii.eqb c ".")) w = true.

(** *** The match engine *)

(** The three fields a candidate is compared on. *)
Definition value_fields : list string := ["observable_value"; "value"; "name"].

(** The candidate record an edge carries, if any. *)
Definition candidate_of (e : edge) : option node :=
  match e with
  | Edge (Val n) => Some n
  | _ => None
  end.

Definition hash_entries (n : node) : list (gmap string jstr) :=
  match hashes n with
  | Val entries => entries
  | _ => []
  end.

(** Field [key] of [n] holds a string whose lower-cased form is [target]. *)
Definition field_is (n : node) (target key : string) : bool :=
  match attrs n !! key with
  | Some (JStr s) => String.eqb (lower s) target
  | _ => false
  end.

(** The [hash] of [entry] is a string whose lower-cased form is [target]. *)
Definition hash_is (target : string) (entry : gmap string jstr) : bool :=
  match entry !! "hash" with
  | Some (JStr h) => String.eqb (lower h) target
  | _ => false
  end.

Definition candidate_matches (n : node) (target : string) : bool :=
  existsb (field_is n target) value_fields ||
  existsb (hash_is target) (hash_entries n).

(** The first candidate, in the order received, that matches the
    lower-cased [value]. *)
Fixpoint first_match (edges : list edge) (value : string) : option node :=
  match edges with
  | [] => None
  | e :: rest =>
      match candidate_of e with
      | Some n =>
          if candidate_matches n (lower value) then Some n
          else first_match rest value
      | None => first_match rest value
      end
  end.

(** None of the compared members of [n] is JSON [null]. *)
Definition null_free (n : node) : Prop :=
  (forall key, In key value_fields -> attrs n !! key <> Some JNull) /\
  (forall entry, In entry (hash_entries n) -> entry !! "hash" <> Some JNull).

(** *** The gateway *)

(** The specification's error names, as the exceptions the tools raise. *)
Definition InvalidInput : exn :=
  ToolError "Parameter 'value' must be a non-empty string.".

Definition AmbiguousInput : exn :=
  ToolError
    "Unable to infer value type. Please provide 'value_type' as ip, domain, or hash.".

Definition NotFound (value : string) (kind : ObservableKind) : exn :=
  ToolError ("No observable found matching value '" +:+ value
             +:+ "' for type '" +:+ kind_name kind +:+ "'.").

(** The class of an exception. *)
Definition class_of (e : exn) : string :=
  match e with
  | ValueError _ => "ValueError"
  | KeyError _ => "KeyError"
  | AttributeError _ => "AttributeError"
  | TypeError _ => "TypeError"
  | HTTPError _ => "httpx.HTTPError"
  | ConfigurationError _ => "ConfigurationError"
  | OpenCTIAPIError _ => "OpenCTIAPIError"
  | ToolError _ => "ToolError"
  end.

(** Field [key] of a record when it is present and a non-empty string. *)
Definition present (n : node) (key : string) : option string :=
  match attrs n !! key with
  | Some (JStr (String c s)) => Some (String c s)
  | _ => None
  end.

(** The value reported for a record: [observable_value], else [value],
    else [name], else the caller's input. *)
Definition fallback_chain (n : node) (original : string) : string :=
  match present n "observable_value" with
  | Some v => v
  | None =>
      match present n "value" with
      | Some v => v
      | None =>
          match present n "name" with
          | Some v => v
          | None => original
          end
      end
  end.

(** The mutation the client issues to create [value] as [kind], if it
    gets as far as issuing one. *)
Definition creation_request `{IpAddress} (value : string) (kind : ObservableKind)
  : option request :=
  match kind with
  | KindDomain => Some (CreateDomain "Domain-Name" value)
  | KindIp =>
      match ip_address value with
      | Some V4 => Some (CreateIPv4 "IPv4-Addr" value)
      | Some V6 => Some (CreateIPv6 "IPv6-Addr" value)
      | None => None
      end
  | KindHash =>
      match get_hash_algorithm value with
      | Ok algo => Some (CreateArtifact "Artifact" algo value)
      | Raise _ => None
      end
  end.



(** The gateway's answer for a record it has found or created. *)
Definition answer (status : string) (id : jstr) (record : node) (original : string)
  : gateway_result :=
  GatewayResult status
    (ObservableView id (get (attrs record) "entity_type")
       (fallback_chain record original)).

(** The tool call got past its local checks with kind [kind]. *)
Definition accepted `{IpAddress} `{Config}
  (value : string) (value_type : option string) (kind : ObservableKind) : Prop :=
  falsy value || falsy (strip value) = false /\
  _normalize_observable_type value value_type = Ok kind /\
  exists settings, get_settings = Ok settings.

(** *** Sample collaborators for closed examples *)

Definition is_digit (c : ascii) : bool := between 48 57 c.

Fixpoint decimal (acc : N) (s : string) : N :=
  match s with
  | EmptyString => acc
  | String c r => decimal (acc * 10 + (code c - 48))%N r
  end.

Definition octet (s : string) : bool :=
  all_chars is_digit s && (1 <=? len s)%nat && (len s <=? 3)%nat &&
  (negb (starts_with "0" s) || String.eqb s "0") && (decimal 0 s <=? 255)%N.

(** An address parser that knows dotted quads only. *)
Definition dotted_quad : IpAddress :=
  fun s =>
    match split "." s with
    | [a; b; c; d] =>
        if octet a && octet b && octet c && octet d then Some V4 else None
    | _ => None
    end.

(** A platform that answers from a script, one reply per request. *)
Definition scripted : Remote :=
  {| platform := list reply;
     respond := fun script _ =>
       match script with
       | rep :: rest => (rep, rest)
       | [] => (Failed "connection refused", [])
       end |}.

Definition sample_settings : Config :=
  Ok (Settings "https://opencti.example" "token" true (Some "vt-connector")).

(** A search response with the given edges. *)
Definition found (es : list edge) : reply :=
  Payload None (Val (Data (Val (Container (Val es))) Absent Absent)).

(** A creation response with the given record. *)
Definition added (n : node) : reply :=
  Payload None (Val (Data Absent (Val n) Absent)).

Definition example_com : node :=
  Node {[ "id" := JStr "obs-1"; "entity_type" := JStr "Domain-Name";
          "observable_value" := JStr "EXAMPLE.com" ]} Absent.

(** A file known by its hash only: its [name] is [null]. *)
Definition unnamed_file : node :=
  Node {[ "id" := JStr "file-1"; "entity_type" := JStr "StixFile";
          "observable_value" := JStr "d41d8cd98f00b204e9800998ecf8427e";
          "name" := JNull ]}
       (Val [ {[ "algorithm" := JStr "MD5";
                 "hash" := JStr "D41D8CD98F00B204E9800998ECF8427E" ]} ]).

(** The classifier over the sample parser. *)
Definition classify : string -> option ObservableKind :=
  infer_observable_type (H := dotted_quad).

(** A file record that carries a hash entry and no name. *)
Definition md5_file : node :=
  Node {[ "id" := JStr "file-2" ]}
       (Val [ {[ "algorithm" := JStr "MD5";
                 "hash" := JStr "D41D8CD98F00B204E9800998ECF8427E" ]} ]).

(** The gateway on a scripted platform: its outcome and the requests
    sent. *)
Definition run_create (value : string) (script : list reply)
  : result gateway_result * list request :=
  let '(r, w) :=
    Server.create_observable (H := dotted_quad) (H0 := scripted) (H1 := sample_settings)
      value None (@World scripted script []) in
  (r, sent w).

End Terms.

(** ** config.py *)

Module ConfigPy.
Import Py Server.

(** Python's [float] and [float(s)]: the values stay abstract, [None]
    stands for the [ValueError] of a text that is no number, and
    [float_30] is the literal [30.0]. *)
Class Float := {
  pyfloat : Type;
  float_of_str : string -> option pyfloat;
  float_30 : pyfloat;
}.

(** [s.rstrip(chars)] for the characters that satisfy [chars]. *)
Fixpoint rstrip_chars (chars : ascii -> bool) (s : string) : string :=
  match s with
  | EmptyString => EmptyString
  | String c r =>
      match rstrip_chars chars r with
      | EmptyString => if chars c then EmptyString else String c EmptyString
      | r' => String c r'
      end
  end.

(** [sep.join(l)] *)
Fixpoint join (sep : string) (l : list string) : string :=
  match l with
  | [] => EmptyString
  | [x] => x
  | x :: rest => x +:+ sep +:+ join sep rest
  end.

(** [not v] for [v] a [str] or [None]. *)
Definition unset (v : option string) : bool :=
  match v with
  | Some (String _ _) => false
  | _ => true
  end.

(** [OpenCTISettings.from_env()] over the environment [environ]: the
    settings together with [timeout_seconds]. *)
Definition from_env `{Float} (environ : gmap string string)
  : result (OpenCTISettings * pyfloat) :=
  let base_url := environ !! "OPENCTI_URL" in
  let api_token := environ !! "OPENCTI_TOKEN" in
  let missing :=
    (if unset base_url then ["OPENCTI_URL"] else []) ++
    (if unset api_token then ["OPENCTI_TOKEN"] else []) in
  match missing with
  | _ :: _ =>
      Raise (ConfigurationError
               ("Missing required OpenCTI configuration: " +:+ join ", " missing))
  | [] =>
      let verify_raw :=
        lower (match environ !! "OPENCTI_VERIFY_SSL" with
               | Some v => v
               | None => "true"
               end) in
      let verify_ssl :=
        negb (existsb (String.eqb verify_raw) ["0"; "false"; "no"; "off"]) in
      let timeout_raw :=
        strip (match environ !! "OPENCTI_TIMEOUT" with
               | Some v => v
               | None => ""
               end) in
      match (if falsy timeout_raw then Some float_30 else float_of_str timeout_raw) with
      | None =>
          Raise (ConfigurationError
                   ("Invalid OPENCTI_TIMEOUT value: '" +:+ timeout_raw
                    +:+ "'. Must be a number."))
      | Some timeout_seconds =>
          let vt_connector_id :=
            match environ !! "VIRUSTOTAL_CONNECTOR_ID" with
            | Some (String c s) => Some (String c s)
            | _ => None
            end in
          Ok (Settings
                (rstrip_chars (Ascii.eqb "/")
                   (match base_url with Some v => v | None => "" end))
                (match api_token with Some v => v | None => "" end)
                verify_ssl
                vt_connector_id,
              timeout_seconds)
      end
  end.

(** [get_settings()] for a process started in [environ]. *)
Definition settings_from `{Float} (environ : gmap string string) : Config :=
  match from_env environ with
  | Ok (settings, _) => Ok settings
  | Raise e => Raise e
  end.

End ConfigPy.
(** ** The other tools of server.py, over untyped JSON *)

Module Graph.
Import Py Json Server.

(** A decoded JSON value; numbers are integers. *)
#[warnings="-register-all"]
Inductive json :=
| JsNull
| JsBool (b : bool)
| JsInt (z : Z)
| JsStr (s : string)
| JsList (l : list json)
| JsDict (d : list (string * json)).

(** A decoded JSON object, as the list of its members. *)
Definition dict : Type := list (string * json).

(** [d.get(key)] as an option, and [key in d]. *)
Fixpoint dict_get (d : dict) (key : string) : option json :=
  match d with
  | [] => None
  | (k, v) :: rest => if String.eqb k key then Some v else dict_get rest key
  end.

Definition has_key (d : dict) (key : string) : bool :=
  match dict_get d key with
  | Some _ => true
  | None => false
  end.

(** The truth value of a Python object. *)
Definition truthy (j : json) : bool :=
  match j with
  | JsNull => false
  | JsBool b => b
  | JsInt z => negb (z =? 0)%Z
  | JsStr s => negb (falsy s)
  | JsList l => match l with [] => false | _ => true end
  | JsDict d => match d with [] => false | _ => true end
  end.

Definition type_name (j : json) : string :=
  match j with
  | JsNull => "NoneType"
  | JsBool _ => "bool"
  | JsInt _ => "int"
  | JsStr _ => "str"
  | JsList _ => "list"
  | JsDict _ => "dict"
  end.

(** [j.get(key)]: only a dict has the method. *)
Definition json_get (j : json) (key : string) : result json :=
  match j with
  | JsDict d =>
      Ok (match dict_get d key with Some v => v | None => JsNull end)
  | other =>
      Raise (AttributeError
               ("'" +:+ type_name other +:+ "' object has no attribute 'get'"))
  end.

(** [j != s] for a string [s]. *)
Definition differs_from (j : json) (s : string) : bool :=
  match j with
  | JsStr t => negb (String.eqb t s)
  | _ => true
  end.

(** The body posted to [/graphql]. *)
Inductive request := Gql (query : string) (variables : gmap string json).

(** What comes back: a transport or status failure, a body that is not
    JSON, or a JSON object.  Of the object the model keeps a truthy
    [errors] member, as the text Python renders it to, and the [data]
    member, which is an object, [null] or missing. *)
Inductive reply :=
| Failed (msg : string)
| NotJson (snippet : string)
| Payload (errors : option string) (data : member dict).

Class Endpoint := {
  platform : Type;
  respond : platform -> request -> reply * platform;
}.

(** The query texts of queries.py that the modelled tools send. *)
Class QueryTexts := {
  CORE_OBJECT_QUERY : string;
  CORE_RELATIONSHIP_QUERY : string;
  CYBER_OBSERVABLE_QUERY : string;
  ENTITY_RELATIONSHIPS_QUERY : string;
  ENTITY_INDICATORS_QUERY : string;
  ENTITY_ATTACK_PATTERNS_QUERY : string;
  ENTITY_OBSERVABLES_QUERY : string;
  ENTITY_NOTES_QUERY : string;
  SEARCH_BY_STIX_ID_QUERY : string;
}.

Record CollectionQuery := {
  result_key : string;
  label : string;
  query : string;
}.

Section World.
Context `{Endpoint}.

Record world := World { remote : platform; sent : list request }.

Definition M (A : Type) : Type := world -> result A * world.

Definition ret {A} (a : A) : M A := fun w => (Ok a, w).

Definition raise {A} (e : exn) : M A := fun w => (Raise e, w).

Definition lift {A} (r : result A) : M A := fun w => (r, w).

Definition bind {A B} (m : M A) (k : A -> M B) : M B :=
  fun w =>
    match m w with
    | (Ok a, w') => k a w'
    | (Raise e, w') => (Raise e, w')
    end.

Definition except_api {A} (m : M A) (handler : string -> exn) : M A :=
  fun w =>
    match m w with
    | (Raise (OpenCTIAPIError msg), w') => (Raise (handler msg), w')
    | other => other
    end.

Definition post (rq : request) : M reply :=
  fun w =>
    let '(rep, pf) := respond (remote w) rq in
    (Ok rep, World pf (sent w ++ [rq])).

End World.

Notation "'let*' x := m 'in' k" := (bind m (fun x => k))
  (at level 10, x name, m at level 100, k at level 200).

Section Tools.
Context `{Endpoint} `{QueryTexts} `{Config}.

(** [client.graphql_query(query, variables)]; the result is the [data]
    member, Python [None] when it is [null]. *)
Definition graphql_query (query : string) (variables : option (gmap string json))
  : M (option dict) :=
  let body :=
    Gql query (match variables with Some v => v | None => ∅ end) in
  let* rep := post body in
  match rep with
  | Failed msg => raise (HTTPError msg)
  | NotJson snippet =>
      raise (OpenCTIAPIError
               ("Invalid JSON response from OpenCTI GraphQL API: " +:+ snippet))
  | Payload (Some errors) _ =>
      raise (OpenCTIAPIError ("GraphQL error: " +:+ errors))
  | Payload None d =>
      ret match d with
          | Absent => Some []
          | Null => None
          | Val d => Some d
          end
  end.

(** [key in data] and [data.get(key)] where [data] may be Python [None]. *)
Definition contains (data : option dict) (key : string) : result bool :=
  match data with
  | None => Raise (TypeError "argument of type 'NoneType' is not iterable")
  | Some d => Ok (has_key d key)
  end.

Definition data_get (data : option dict) (key : string) : result json :=
  match data with
  | None => Raise (AttributeError "'NoneType' object has no attribute 'get'")
  | Some d => Ok (match dict_get d key with Some v => v | None => JsNull end)
  end.

Definition _execute_collection_query
  (config : CollectionQuery) (search : option string) (limit : Z) : M json :=
  if (limit <=? 0)%Z
  then raise (ToolError "Parameter 'limit' must be greater than zero.")
  else
    let* client := lift _build_client in
    let variables : gmap string json := {[ "first" := JsInt limit ]} in
    let variables :=
      match search with
      | Some (String c s) => <[ "search" := JsStr (String c s) ]> variables
      | _ => variables
      end in
    let* data :=
      except_api (graphql_query (query config) (Some variables))
        (wrap_api_error "OpenCTI API error during query.") in
    let* present := lift (contains data (result_key config)) in
    if negb present
    then raise (ToolError ("Unexpected OpenCTI response: missing '"
                           +:+ result_key config +:+ "'."))
    else lift (data_get data (result_key config)).

(** The loop of [get_entity] over the queries still to try. *)
Fixpoint get_entity_loop (queries : list (string * string))
  (entity_type entity_id : string) : M json :=
  match queries with
  | [] => raise (ToolError ("No entity found with id '" +:+ entity_id +:+ "'."))
  | (key, query) :: rest =>
      let* data :=
        except_api (graphql_query query (Some {[ "id" := JsStr entity_id ]}))
          (wrap_api_error "Failed to fetch entity from OpenCTI.") in
      let* result := lift (data_get data key) in
      if truthy result
      then
        let* fetched_type := lift (json_get result "entity_type") in
        if negb (falsy entity_type) && truthy fetched_type
           && differs_from fetched_type entity_type
        then get_entity_loop rest entity_type entity_id
        else ret result
      else get_entity_loop rest entity_type entity_id
  end.

Definition get_entity (entity_type entity_id : string) : M json :=
  let* client := lift _build_client in
  let queries :=
    [ ("stixCoreObject", CORE_OBJECT_QUERY);
      ("stixCoreRelationship", CORE_RELATIONSHIP_QUERY);
      ("stixCyberObservable", CYBER_OBSERVABLE_QUERY) ] in
  get_entity_loop queries entity_type entity_id.

Definition execute_graphql (query : string) (variables : option (gmap string json))
  : M (option dict) :=
  let* client := lift _build_client in
  except_api (graphql_query query variables)
    (wrap_api_error "Failed to execute GraphQL query.").

(** The body shared by [get_entity_relationships],
    [get_indicators_by_entity], [get_attack_patterns_by_entity],
    [get_entity_observables] and [get_entity_notes], which differ in the
    query and in the fallback message only. *)
Definition by_entity (query fallback : string) (entity_id : string) (limit : Z)
  : M json :=
  if (limit <=? 0)%Z
  then raise (ToolError "Parameter 'limit' must be greater than zero.")
  else
    let* client := lift _build_client in
    let* data :=
      except_api
        (graphql_query query
           (Some {[ "id" := JsStr entity_id; "first" := JsInt limit ]}))
        (wrap_api_error fallback) in
    let* present := lift (contains data "stixCoreObject") in
    let* found := lift (data_get data "stixCoreObject") in
    if negb present || negb (truthy found)
    then raise (ToolError ("No entity found with id '" +:+ entity_id +:+ "'."))
    else ret found.

Definition get_entity_relationships : string -> Z -> M json :=
  by_entity ENTITY_RELATIONSHIPS_QUERY
    "Failed to fetch entity relationships from OpenCTI.".

Definition get_indicators_by_entity : string -> Z -> M json :=
  by_entity ENTITY_INDICATORS_QUERY
    "Failed to fetch entity indicators from OpenCTI.".

Definition get_attack_patterns_by_entity : string -> Z -> M json :=
  by_entity ENTITY_ATTACK_PATTERNS_QUERY
    "Failed to fetch entity attack patterns from OpenCTI.".

Definition get_entity_observables : string -> Z -> M json :=
  by_entity ENTITY_OBSERVABLES_QUERY
    "Failed to fetch entity observables from OpenCTI.".

Definition get_entity_notes : string -> Z -> M json :=
  by_entity ENTITY_NOTES_QUERY
    "Failed to fetch entity notes from OpenCTI.".

Definition search_by_stix_id (stix_id : string) : M json :=
  if falsy stix_id || falsy (strip stix_id)
  then raise (ToolError "Parameter 'stix_id' must be a non-empty string.")
  else
    let* client := lift _build_client in
    let* data :=
      except_api
        (graphql_query SEARCH_BY_STIX_ID_QUERY (Some {[ "stixId" := JsStr stix_id ]}))
        (wrap_api_error "Failed to search by STIX ID in OpenCTI.") in
    let* present := lift (contains data "stixDomainObject") in
    let* found := lift (data_get data "stixDomainObject") in
    if negb present || negb (truthy found)
    then raise (ToolError ("No entity found with STIX ID '" +:+ stix_id +:+ "'."))
    else ret found.

End Tools.

End Graph.
(** ** Further vocabulary *)

Module MoreTerms.
Import Py Re Observables Json Effects Client Server Terms.

(** A digest: hexadecimal characters only, in one of the four hash
    lengths. *)
Definition hex_digest (s : string) : Prop :=
  all_chars is_hex s = true /\ In (len s) HASH_LENGTHS.

(** The search the tools issue for [value] taken as [kind]. *)
Definition search_request (value : string) (kind : ObservableKind) : request :=
  FindObservables (strip value) (OBSERVABLE_TYPES kind) 10.

(** The trimmed text of [OPENCTI_TIMEOUT], empty when it is not set. *)
Definition timeout_text (environ : gmap string string) : string :=
  strip (match environ !! "OPENCTI_TIMEOUT" with
         | Some v => v
         | None => ""
         end).

(** The names of the required variables that [environ] leaves unset or
    empty, as the error message lists them. *)
Definition missing_names (environ : gmap string string) : string :=
  if ConfigPy.unset (environ !! "OPENCTI_URL")
  then if ConfigPy.unset (environ !! "OPENCTI_TOKEN")
       then "OPENCTI_URL, OPENCTI_TOKEN"
       else "OPENCTI_URL"
  else "OPENCTI_TOKEN".

(** *** Further sample collaborators *)

(** Seconds as a natural number written in decimal digits. *)
Definition decimal_seconds : ConfigPy.Float :=
  {| ConfigPy.pyfloat := N;
     ConfigPy.float_of_str := fun s =>
       if all_chars is_digit s && negb (falsy s) then Some (decimal 0 s) else None;
     ConfigPy.float_30 := 30%N |}.

Definition sample_environ : gmap string string :=
  {[ "OPENCTI_URL" := "https://opencti.example//";
     "OPENCTI_TOKEN" := "token";
     "OPENCTI_VERIFY_SSL" := "Off";
     "OPENCTI_TIMEOUT" := " 45 ";
     "VIRUSTOTAL_CONNECTOR_ID" := "" ]}.

(** A process started without any of the variables. *)
Definition no_settings : Config :=
  ConfigPy.settings_from (H := decimal_seconds) ∅.

(** An enrichment response carrying the work identifier [work]. *)
Definition enrichment_started (work : string) : reply :=
  Payload None
    (Val (Data Absent Absent (Val (EditBlock (Val {[ "id" := JStr work ]}))))).

End MoreTerms.
(** ** Vocabulary for the untyped tools *)

Module GraphTerms.
Import Py Json Server Graph.

(** The variables of a collection query: [first], and [search] when a
    non-empty search text is given. *)
Definition collection_variables (search : option string) (limit : Z)
  : gmap string json :=
  match search with
  | Some (String c s) =>
      {[ "first" := JsInt limit; "search" := JsStr (String c s) ]}
  | _ => {[ "first" := JsInt limit ]}
  end.

(** The request [get_entity] sends for one of its queries. *)
Definition entity_request (entity_id : string) (q : string * string) : request :=
  Gql (snd q) {[ "id" := JsStr entity_id ]}.

(** The queries of [get_entity], in the order tried. *)
Definition entity_queries `{QueryTexts} : list (string * string) :=
  [ ("stixCoreObject", CORE_OBJECT_QUERY);
    ("stixCoreRelationship", CORE_RELATIONSHIP_QUERY);
    ("stixCyberObservable", CYBER_OBSERVABLE_QUERY) ].

(** The five tools that look one entity up with a limit, each with its
    query. *)
Definition by_entity_tools `{Endpoint} `{QueryTexts} `{Config}
  : list ((string -> Z -> M json) * string) :=
  [ (get_entity_relationships, ENTITY_RELATIONSHIPS_QUERY);
    (get_indicators_by_entity, ENTITY_INDICATORS_QUERY);
    (get_attack_patterns_by_entity, ENTITY_ATTACK_PATTERNS_QUERY);
    (get_entity_observables, ENTITY_OBSERVABLES_QUERY);
    (get_entity_notes, ENTITY_NOTES_QUERY) ].

(** Whether a result is the client's own API error. *)
Definition api_error {A} (r : result A) : bool :=
  match r with
  | Raise (OpenCTIAPIError _) => true
  | _ => false
  end.

(** Whether what stands under the result key is an object of another type
    than the requested one: a type was requested, the object carries a
    truthy [entity_type], and the two differ. *)
Definition other_type (entity_type : string) (found : json) : bool :=
  match found with
  | JsDict fields =>
      let fetched :=
        match dict_get fields "entity_type" with
        | Some v => v
        | None => JsNull
        end in
      negb (falsy entity_type) && truthy fetched
      && differs_from fetched entity_type
  | _ => false
  end.

(** Whether [get_entity] goes on to its next query after the reply [rep]
    to the query whose result stands under [key]: the reply is free of
    errors, its data is an object or missing, and under the key stands
    nothing truthy or an object of another type.  On every other reply the
    tool returns or raises. *)
Definition moves_on (entity_type key : string) (rep : reply) : bool :=
  match rep with
  | Payload None Absent => true
  | Payload None (Val d) =>
      let found :=
        match dict_get d key with
        | Some v => v
        | None => JsNull
        end in
      if truthy found then other_type entity_type found else true
  | _ => false
  end.

(** The requests [get_entity] sends to a platform in state [pf]: each
    query still to try, until a reply after which it does not move on. *)
Fixpoint requests_until_stop `{Endpoint}
  (entity_type entity_id : string) (queries : list (string * string))
  (pf : platform) : list request :=
  match queries with
  | [] => []
  | q :: rest =>
      let rq := entity_request entity_id q in
      let '(rep, pf') := respond pf rq in
      rq :: (if moves_on entity_type (fst q) rep
             then requests_until_stop entity_type entity_id rest pf'
             else [])
  end.

(** *** Sample collaborators *)

Definition scripted_endpoint : Endpoint :=
  {| platform := list reply;
     respond := fun script _ =>
       match script with
       | rep :: rest => (rep, rest)
       | [] => (Failed "connection refused", [])
       end |}.

(** Short stand-ins for the query texts. *)
Definition short_texts : QueryTexts :=
  {| CORE_OBJECT_QUERY := "query CoreObject";
     CORE_RELATIONSHIP_QUERY := "query CoreRelationship";
     CYBER_OBSERVABLE_QUERY := "query CyberObservable";
     ENTITY_RELATIONSHIPS_QUERY := "query EntityRelationships";
     ENTITY_INDICATORS_QUERY := "query EntityIndicators";
     ENTITY_ATTACK_PATTERNS_QUERY := "query EntityAttackPatterns";
     ENTITY_OBSERVABLES_QUERY := "query EntityObservables";
     ENTITY_NOTES_QUERY := "query EntityNotes";
     SEARCH_BY_STIX_ID_QUERY := "query SearchByStixId" |}.

Definition indicators : CollectionQuery :=
  {| result_key := "indicators"; label := "OpenCTI indicators";
     query := "query Indicators" |}.

Definition loaded : Config :=
  Ok (Settings "https://opencti.example" "token" true None).

(** A response whose [data] is the given object. *)
Definition data_of (d : dict) : reply := Payload None (Val d).

End GraphTerms.

(** * Properties *)

(** ** Strings *)

Module PyFacts.
Import Py.

Lemma rstrip_idem (s : string) : rstrip (rstrip s) = rstrip s.
Proof.
  induction s as [|c r IH]; [reflexivity|].
  simpl. destruct (rstrip r) as [|c' r'] eqn:E.
  - destruct (isspace c) eqn:Ec; simpl; [reflexivity|]. now rewrite Ec.
  - change (rstrip (String c (String c' r'))) with
      (match rstrip (String c' r') with
       | EmptyString => if isspace c then EmptyString else String c EmptyString
       | r'' => String c r''
       end).
    now rewrite IH.
Qed.

Lemma lstrip_head (s : string) :
  lstrip s = EmptyString \/
  exists c r, lstrip s = String c r /\ isspace c = false.
Proof.
  induction s as [|c r IH]; [now left|].
  simpl. destruct (isspace c) eqn:Ec; [exact IH|].
  right. now exists c, r.
Qed.

Lemma rstrip_head (c : ascii) (r : string) :
  isspace c = false -> exists r', rstrip (String c r) = String c r'.
Proof.
  intros Ec. simpl. destruct (rstrip r) as [|c' r'].
  - rewrite Ec. now exists EmptyString.
  - now exists (String c' r').
Qed.

(** Trimming twice is trimming once. *)
Lemma strip_idem (s : string) : strip (strip s) = strip s.
Proof.
  unfold strip.
  destruct (lstrip_head s) as [E | (c & r & E & Ec)]; rewrite E.
  - reflexivity.
  - destruct (rstrip_head c r Ec) as (r' & E').
    rewrite E'. simpl lstrip. rewrite Ec. rewrite <- E'. apply rstrip_idem.
Qed.

Lemma lstrip_blank (s : string) :
  all_chars isspace s = true -> lstrip s = EmptyString.
Proof.
  induction s as [|c r IH]; [reflexivity|].
  simpl. destruct (isspace c); [simpl; exact IH | discriminate].
Qed.

Lemma strip_blank (s : string) :
  all_chars isspace s = true -> strip s = EmptyString.
Proof. intros Hs. unfold strip. now rewrite lstrip_blank. Qed.

Lemma lstrip_solid (s : string) :
  all_chars (fun c => negb (isspace c)) s = true -> lstrip s = s.
Proof.
  destruct s as [|c r]; [reflexivity|].
  simpl. now destruct (isspace c).
Qed.

Lemma rstrip_solid (s : string) :
  all_chars (fun c => negb (isspace c)) s = true -> rstrip s = s.
Proof.
  induction s as [|c r IH]; [reflexivity|].
  simpl. intros Hs. apply andb_prop in Hs as [Hc Hr].
  rewrite (IH Hr). destruct r; [|reflexivity].
  now destruct (isspace c).
Qed.

(** A string without white space is its own trimmed form. *)
Lemma strip_solid (s : string) :
  all_chars (fun c => negb (isspace c)) s = true -> strip s = s.
Proof.
  intros Hs. unfold strip. rewrite (lstrip_solid s Hs). now apply rstrip_solid.
Qed.

Lemma all_chars_impl (p q : ascii -> bool) (s : string) :
  (forall c, p c = true -> q c = true) ->
  all_chars p s = true -> all_chars q s = true.
Proof.
  intros Hpq. induction s as [|c r IH]; [reflexivity|].
  simpl. intros Hs. apply andb_prop in Hs as [Hc Hr].
  now rewrite (Hpq c Hc), (IH Hr).
Qed.

Lemma lower_length (s : string) : len (lower s) = len s.
Proof. induction s as [|c r IH]; simpl; [reflexivity | now f_equal]. Qed.

Lemma all_chars_lower (p : ascii -> bool) (s : string) :
  (forall c, p c = true -> p (lower_char c) = true) ->
  all_chars p s = true -> all_chars p (lower s) = true.
Proof.
  intros Hp. induction s as [|c r IH]; [reflexivity|].
  simpl. intros Hs. apply andb_prop in Hs as [Hc Hr].
  now rewrite (Hp c Hc), (IH Hr).
Qed.

Lemma all_chars_app (p : ascii -> bool) (u v : string) :
  all_chars p (u +:+ v) = all_chars p u && all_chars p v.
Proof.
  induction u as [|c r IH]; [reflexivity|].
  simpl. now rewrite IH, andb_assoc.
Qed.


End PyFacts.

(** ** The matcher *)

Module ReFacts.
Import Py Re Terms PyFacts.

Lemma reads_nil (p : pos) : reads EmptyString p p.
Proof. now split. Qed.

Lemma append_cons (c : ascii) (u v : string) :
  String c u +:+ v = String c (u +:+ v).
Proof. reflexivity. Qed.

Lemma append_nil_l (v : string) : EmptyString +:+ v = v.
Proof. reflexivity. Qed.

Ltac app_simpl := simpl; rewrite ?append_cons, ?append_nil_l.

Lemma reads_nil_inv (p q : pos) : reads EmptyString p q -> p = q.
Proof.
  intros [Hw Hb]. rewrite append_nil_l in Hw. simpl in Hb.
  destruct p, q; simpl in *; congruence.
Qed.

Lemma append_assoc (u v w : string) : (u +:+ v) +:+ w = u +:+ (v +:+ w).
Proof. induction u as [|c r IH]; app_simpl; [reflexivity | now f_equal]. Qed.

Lemma append_nil_r (u : string) : u +:+ EmptyString = u.
Proof. induction u as [|c r IH]; app_simpl; [reflexivity | now f_equal]. Qed.

Lemma length_append (u v : string) : len (u +:+ v) = len u + len v.
Proof. induction u as [|c r IH]; app_simpl; [reflexivity | simpl; now f_equal]. Qed.

Lemma last_char_app (b : option ascii) (u v : string) :
  last_char b (u +:+ v) = last_char (last_char b u) v.
Proof. revert b. induction u as [|c r IH]; intros b; simpl; [reflexivity | apply IH]. Qed.

Lemma reads_trans (u v : string) (p q r : pos) :
  reads u p q -> reads v q r -> reads (u +:+ v) p r.
Proof.
  intros [Hu Hb] [Hv Hc]. split.
  - now rewrite Hu, Hv, append_assoc.
  - now rewrite last_char_app, <- Hb.
Qed.

Lemma in_flat_map_iff {A B} (f : A -> list B) (l : list A) (y : B) :
  In y (flat_map f l) <-> exists x, In x l /\ In y (f x).
Proof. apply in_flat_map. Qed.

Lemma eat_spec (ok : ascii -> bool) (p q : pos) :
  In q (eat ok p) <->
  exists a, ok a = true /\ reads (String a EmptyString) p q.
Proof.
  unfold eat, reads. destruct p as [b s], q as [b' s']; simpl. split.
  - destruct s as [|a s]; [intros []|].
    destruct (ok a) eqn:Ea; [|intros []].
    intros [E | []]. injection E as <- <-. now exists a.
  - intros (a & Ea & Hs & Hb). rewrite append_cons, append_nil_l in Hs.
    subst. rewrite Ea. now left.
Qed.

Section Repetition.
Variable step : pos -> list pos.
Variable one : string -> Prop.
Hypothesis step_reads :
  forall p q, In q (step p) <-> exists w, one w /\ reads w p q.

Lemma at_most_spec (n : nat) (p q : pos) :
  In q (at_most step n p) <->
  exists k w, k <= n /\ rounds one k w /\ reads w p q.
Proof.
  revert p. induction n as [|n IH]; intros p; simpl.
  - split.
    + intros [<- | []]. exists 0, EmptyString.
      split; [lia|]. split; [constructor | apply reads_nil].
    + intros (k & w & Hk & Hr & Hw).
      assert (k = 0) as -> by lia. inversion Hr; subst.
      left. now apply reads_nil_inv.
  - rewrite in_app_iff, in_flat_map_iff. split.
    + intros [(m & Hm & Hq) | [<- | []]].
      * apply step_reads in Hm as (u & Hu & Hpu).
        apply IH in Hq as (k & v & Hk & Hv & Hmv).
        exists (S k), (u +:+ v). split; [lia|].
        split; [now constructor | now apply reads_trans with m].
      * exists 0, EmptyString.
        split; [lia|]. split; [constructor | apply reads_nil].
    + intros (k & w & Hk & Hr & Hw).
      destruct Hr as [|k u v Hu Hv].
      * right. left. now apply reads_nil_inv.
      * left. destruct Hw as [Hw Hb].
        exists (Pos (last_char (before p) u) (v +:+ ahead q)). split.
        -- apply step_reads. exists u. split; [exact Hu|].
           split; simpl; [now rewrite Hw, append_assoc | reflexivity].
        -- apply IH. exists k, v. split; [lia|]. split; [exact Hv|].
           split; simpl; [reflexivity | now rewrite Hb, last_char_app].
Qed.

Lemma iterate_spec (lo n : nat) (p q : pos) :
  In q (iterate step lo n p) <->
  exists k w, lo <= k <= lo + n /\ rounds one k w /\ reads w p q.
Proof.
  revert p. induction lo as [|lo IH]; intros p; simpl.
  - rewrite at_most_spec. split; intros (k & w & Hk & Hr); exists k, w;
      (split; [lia | exact Hr]).
  - rewrite in_flat_map_iff. split.
    + intros (m & Hm & Hq).
      apply step_reads in Hm as (u & Hu & Hpu).
      apply IH in Hq as (k & v & Hk & Hv & Hmv).
      exists (S k), (u +:+ v). split; [lia|].
      split; [now constructor | now apply reads_trans with m].
    + intros (k & w & Hk & Hr & Hw).
      destruct Hr as [|k u v Hu Hv]; [lia|].
      destruct Hw as [Hw Hb].
      exists (Pos (last_char (before p) u) (v +:+ ahead q)). split.
      * apply step_reads. exists u. split; [exact Hu|].
        split; simpl; [now rewrite Hw, append_assoc | reflexivity].
      * apply IH. exists k, v. split; [lia|]. split; [exact Hv|].
        split; simpl; [reflexivity | now rewrite Hb, last_char_app].
Qed.

End Repetition.

(** Rounds of a one-character step read exactly the texts over the class,
    one character per round. *)
Lemma rounds_chars (ok : ascii -> bool) (k : nat) (w : string) :
  rounds (fun u => exists a, ok a = true /\ u = String a EmptyString) k w <->
  len w = k /\ all_chars ok w = true.
Proof.
  split.
  - induction 1 as [|k u v (a & Ha & ->) Hv [IHl IHa]]; [now split|].
    rewrite append_cons, append_nil_l. split.
    + unfold len in *. simpl. now f_equal.
    + simpl. now rewrite Ha.
  - revert k. induction w as [|a r IH]; intros k [Hl Hw]; simpl in *.
    + subst k. constructor.
    + subst k. apply andb_prop in Hw as [Ha Hr].
      change (String a r) with (String a EmptyString +:+ r).
      constructor; [now exists a | now apply IH].
Qed.

(** [Rep (Cls ranges) lo (Some hi)] and [Rep (Cls ranges) lo None] read the
    texts over the class whose length is within the bounds. *)
Lemma iterate_class_spec (ok : ascii -> bool) (lo n : nat) (p q : pos) :
  In q (iterate (eat ok) lo n p) <->
  exists w, lo <= len w <= lo + n /\ all_chars ok w = true /\ reads w p q.
Proof.
  rewrite (iterate_spec (eat ok)
             (fun u => exists a, ok a = true /\ u = String a EmptyString)).
  - split.
    + intros (k & w & Hk & Hr & Hw). apply rounds_chars in Hr as [Hl Ha].
      exists w. subst k. split; [exact Hk|]. split; [exact Ha | exact Hw].
    + intros (w & Hk & Ha & Hw). exists (len w), w.
      split; [exact Hk|]. split; [now apply rounds_chars | exact Hw].
  - intros p' q'. rewrite eat_spec. split.
    + intros (a & Ha & Hr). exists (String a EmptyString). split; [now exists a | exact Hr].
    + intros (w & (a & Ha & ->) & Hr). now exists a.
Qed.

Lemma matches_spec (r : regex) (s : string) :
  matches r s = true <-> exists q, In q (run r (Pos None s)).
Proof.
  unfold matches. destruct (run r (Pos None s)) as [|q l]; split.
  - discriminate.
  - intros (q & []).
  - intros _. exists q. now left.
  - reflexivity.
Qed.

End ReFacts.

(** ** The classifier and the hash algorithm resolver *)

Module ObservablesFacts.
Import Py Re Re.Notations Observables Terms PyFacts ReFacts.

Ltac by_cases_on_char c :=
  destruct c as [[] [] [] [] [] [] [] []]; vm_compute; congruence.

Lemma is_hex_in_class (c : ascii) :
  in_class [("A", "F"); ("a", "f"); ("0", "9")]%char c = is_hex c.
Proof. by_cases_on_char c. Qed.

Lemma is_hex_not_space (c : ascii) : is_hex c = true -> negb (isspace c) = true.
Proof. by_cases_on_char c. Qed.

Lemma is_hex_lower (c : ascii) : is_hex c = true -> is_hex (lower_char c) = true.
Proof. by_cases_on_char c. Qed.

Lemma run_Bol_start (s : string) : run Bol (Pos None s) = [Pos None s].
Proof. reflexivity. Qed.

(** [HASH_REGEX] accepts every non-empty text of hexadecimal characters. *)
Lemma HASH_REGEX_accepts (s : string) :
  s <> EmptyString -> all_chars is_hex s = true -> matches HASH_REGEX s = true.
Proof.
  intros Hne Hs. apply matches_spec.
  exists (Pos (last_char None s) EmptyString).
  unfold HASH_REGEX. cbn [run before ahead flat_map]. rewrite app_nil_r.
  apply in_flat_map_iff. exists (Pos (last_char None s) EmptyString). split.
  - apply iterate_class_spec. exists s. split; [|split].
    + destruct s; [congruence|]. unfold len. simpl. lia.
    + eapply all_chars_impl; [|exact Hs].
      intros c Hc. now rewrite is_hex_in_class.
    + split; simpl; [now rewrite append_nil_r | reflexivity].
  - now left.
Qed.

End ObservablesFacts.

(** ** The hostname grammar behind [DOMAIN_REGEX] *)

Module DomainFacts.
Import Py Re Re.Notations Observables Terms PyFacts ReFacts ObservablesFacts.

Lemma is_label_char_in_class (c : ascii) :
  in_class [("A", "Z"); ("a", "z"); ("0", "9"); ("-", "-")]%char c = is_label_char c.
Proof. by_cases_on_char c. Qed.

Lemma is_letter_in_class (c : ascii) :
  in_class [("A", "Z"); ("a", "z")]%char c = is_letter c.
Proof. by_cases_on_char c. Qed.

Lemma is_label_char_not_dot (c : ascii) :
  is_label_char c = true -> Ascii.eqb c "." = false.
Proof. by_cases_on_char c. Qed.

Lemma is_letter_label_char (c : ascii) :
  is_letter c = true -> is_label_char c = true.
Proof. by_cases_on_char c. Qed.

Lemma is_letter_not_lf (c : ascii) :
  is_letter c = true -> Ascii.eqb c "010" = false.
Proof. by_cases_on_char c. Qed.

Lemma all_chars_ext (p q : ascii -> bool) (s : string) :
  (forall c, p c = q c) -> all_chars p s = all_chars q s.
Proof.
  intros Hpq. induction s as [|c r IH]; [reflexivity|].
  simpl. now rewrite Hpq, IH.
Qed.

Lemma last_char_cons (b : option ascii) (a : ascii) (w : string) :
  last_char b (String a w) = last_char None (String a w).
Proof. reflexivity. Qed.

Lemma run_cat (r1 r2 : regex) (p q : pos) :
  In q (run (Cat r1 r2) p) <-> exists m, In m (run r1 p) /\ In q (run r2 m).
Proof. simpl. apply in_flat_map_iff. Qed.

(** What one match of [label] reads. *)
Lemma run_label_spec (p q : pos) :
  In q (run label p) <-> exists w, label_ok w /\ reads w p q.
Proof.
  unfold label. rewrite run_cat. split.
  - intros (m & Hm & Hq). apply run_cat in Hq as (m' & Hm' & Hq).
    cbn [run] in Hm, Hm', Hq.
    apply iterate_class_spec in Hm' as (w & Hlen & Hall & Hr).
    exists w.
    assert (m = p) as ->.
    { destruct (ahead p) as [|a ?]; [|destruct (Ascii.eqb a "-")];
        simpl in Hm; intuition. }
    assert (m' = q) as ->.
    { destruct (before m') as [a|]; [destruct (Ascii.eqb a "-")|];
        simpl in Hq; intuition. }
    split; [|exact Hr]. destruct Hr as [Hw Hb].
    unfold label_ok, len in *.
    destruct w as [|a w]; [simpl in Hlen; lia|].
    split; [simpl in Hlen |- *; lia|].
    split; [now rewrite <- (all_chars_ext _ _ _ is_label_char_in_class)|].
    rewrite Hw, append_cons in Hm. rewrite Hb, last_char_cons in Hq.
    unfold starts_with, ends_with.
    split.
    + destruct (Ascii.eqb a "-"); [destruct Hm | reflexivity].
    + destruct (last_char None (String a w)) as [z|]; [|reflexivity].
      destruct (Ascii.eqb z "-"); [destruct Hq | reflexivity].
  - intros (w & (Hlen & Hall & Hs & He) & Hr).
    unfold len in *.
    exists p. split.
    + cbn [run]. destruct Hr as [Hw Hb].
      destruct w as [|a w]; [simpl in Hlen; lia|].
      rewrite Hw, append_cons. simpl in Hs. rewrite Hs. now left.
    + apply run_cat. exists q. split.
      * cbn [run]. apply iterate_class_spec. exists w.
        split; [unfold len; simpl; lia|]. split; [|exact Hr].
        now rewrite (all_chars_ext _ _ _ is_label_char_in_class).
      * cbn [run]. destruct Hr as [Hw Hb].
        destruct w as [|a w]; [simpl in Hlen; lia|].
        rewrite Hb, last_char_cons. unfold ends_with in He.
        destruct (last_char None (String a w)) as [z|]; [|now left].
        rewrite He. now left.
Qed.

Lemma run_dot_label_spec (p q : pos) :
  In q (run (Lit "." >> label) p) <-> exists u, dot_label u /\ reads u p q.
Proof.
  rewrite run_cat. split.
  - intros (m & Hm & Hq). cbn [run] in Hm.
    apply eat_spec in Hm as (a & Ha & Hpm).
    apply Ascii.eqb_eq in Ha as <-.
    apply run_label_spec in Hq as (w & Hw & Hmq).
    exists (String "." w). split; [now exists w|].
    change (String "." w) with (String "." EmptyString +:+ w).
    now apply reads_trans with m.
  - intros (u & (w & Hw & ->) & [Hu Hb]).
    exists (Pos (Some "."%char) (w +:+ ahead q)). split.
    + cbn [run]. apply eat_spec. exists "."%char.
      split; [apply Ascii.eqb_refl|]. split; [exact Hu | reflexivity].
    + apply run_label_spec. exists w. split; [exact Hw|].
      split; [reflexivity | exact Hb].
Qed.

Lemma rounds_dotted (k : nat) (u : string) :
  rounds dot_label k u <->
  exists ws, length ws = k /\ Forall label_ok ws /\ u = dotted ws.
Proof.
  split.
  - induction 1 as [|k u v (w & Hw & ->) Hv (ws & Hk & Hws & ->)].
    + now exists [].
    + exists (w :: ws). split; [simpl; now f_equal|].
      split; [now constructor | reflexivity].
  - intros (ws & <- & Hws & ->). induction Hws as [|w ws Hw Hws IH].
    + constructor.
    + simpl. constructor; [now exists w | exact IH].
Qed.

Lemma length_dotted (ws : list string) : length ws <= len (dotted ws).
Proof.
  induction ws as [|w ws IH]; [apply Nat.le_refl|].
  cbn [dotted length]. rewrite length_append. unfold len in *. simpl. lia.
Qed.

Lemma reads_ahead (w : string) (b : option ascii) (rest : string) :
  reads w (Pos b (w +:+ rest)) (Pos (last_char b w) rest).
Proof. now split. Qed.

(** [DOMAIN_REGEX] accepts exactly a first label, further dotted labels, a
    dot and a final label, followed by nothing or by one line feed. *)
Theorem DOMAIN_REGEX_spec (s : string) :
  matches DOMAIN_REGEX s = true <->
  exists first more tld tail,
    s = first +:+ dotted more +:+ String "." tld +:+ tail /\
    label_ok first /\ Forall label_ok more /\ tld_ok tld /\
    at_eol tail = true.
Proof.
  rewrite matches_spec. unfold DOMAIN_REGEX. split.
  - intros (q & Hq).
    apply run_cat in Hq as (m1 & H1 & Hq). cbn [run before] in H1.
    destruct H1 as [<- | []].
    apply run_cat in Hq as (m2 & H2 & Hq).
    apply run_label_spec in H2 as (first & Hfirst & [E2 _]).
    apply run_cat in Hq as (m3 & H3 & Hq). cbn [run] in H3.
    apply (iterate_spec _ _ run_dot_label_spec) in H3 as (k & u & _ & Hu & [E3 _]).
    apply rounds_dotted in Hu as (more & _ & Hmore & ->).
    apply run_cat in Hq as (m4 & H4 & Hq). cbn [run] in H4.
    apply eat_spec in H4 as (a & Ha & [E4 _]).
    apply Ascii.eqb_eq in Ha as <-.
    apply run_cat in Hq as (m5 & H5 & Hq). cbn [run] in H5.
    apply iterate_class_spec in H5 as (tld & Hlen & Hall & [E5 _]).
    cbn [run] in Hq. destruct (at_eol (ahead m5)) eqn:Heol; [|destruct Hq].
    exists first, more, tld, (ahead m5).
    split; [|split; [exact Hfirst|split; [exact Hmore|split; [|exact Heol]]]].
    + cbn [ahead] in E2. rewrite E2, E3, E4, E5.
      now rewrite !append_cons, append_nil_l.
    + split; [lia|]. now rewrite <- (all_chars_ext _ _ _ is_letter_in_class).
  - intros (first & more & tld & tail & -> & Hfirst & Hmore & [Hlen Hall] & Heol).
    set (r4 := tld +:+ tail). set (r3 := String "." r4).
    set (r2 := dotted more +:+ r3).
    set (b2 := last_char None first). set (b3 := last_char b2 (dotted more)).
    exists (Pos (last_char (Some "."%char) tld) tail).
    apply run_cat. exists (Pos None (first +:+ r2)). split; [now left|].
    apply run_cat. exists (Pos b2 r2). split.
    { apply run_label_spec. exists first. split; [exact Hfirst | apply reads_ahead]. }
    apply run_cat. exists (Pos b3 r3). split.
    { cbn [run]. apply (iterate_spec _ _ run_dot_label_spec).
      exists (length more), (dotted more). split; [|split].
      - cbn [ahead]. unfold r2. change String.length with len.
        rewrite length_append. pose proof (length_dotted more). lia.
      - apply rounds_dotted. now exists more.
      - apply reads_ahead. }
    apply run_cat. exists (Pos (Some "."%char) r4). split.
    { cbn [run]. apply eat_spec. exists "."%char.
      split; [apply Ascii.eqb_refl | now split]. }
    apply run_cat. exists (Pos (last_char (Some "."%char) tld) tail). split.
    { cbn [run]. apply iterate_class_spec. exists tld.
      split; [lia|]. split; [|apply reads_ahead].
      now rewrite (all_chars_ext _ _ _ is_letter_in_class). }
    cbn [run ahead]. rewrite Heol. now left.
Qed.

(** *** From the text to its labels *)

Lemma split_dotless (w : string) : dotless w -> split "." w = [w].
Proof.
  unfold dotless. induction w as [|c r IH]; [reflexivity|].
  simpl. intros Hw. apply andb_prop in Hw as [Hc Hr].
  destruct (Ascii.eqb c "."); [discriminate|]. now rewrite (IH Hr).
Qed.

Lemma split_dot (w r : string) :
  dotless w -> split "." (w +:+ String "." r) = w :: split "." r.
Proof.
  unfold dotless. induction w as [|c w IH]; [reflexivity|].
  simpl. intros Hw. apply andb_prop in Hw as [Hc Hr].
  rewrite ?append_cons. simpl.
  destruct (Ascii.eqb c "."); [discriminate|]. now rewrite (IH Hr).
Qed.

Lemma label_ok_dotless (w : string) : label_ok w -> dotless w.
Proof.
  intros (_ & Hall & _). eapply all_chars_impl; [|exact Hall].
  intros c Hc. now rewrite (is_label_char_not_dot c Hc).
Qed.

Lemma tld_ok_dotless (w : string) : tld_ok w -> dotless w.
Proof.
  intros (_ & Hall). eapply all_chars_impl; [|exact Hall].
  intros c Hc. now rewrite (is_label_char_not_dot c (is_letter_label_char c Hc)).
Qed.

Lemma labels_dotted (first : string) (more : list string) (tld : string) :
  dotless first -> Forall dotless more -> dotless tld ->
  labels (first +:+ dotted more +:+ String "." tld) = first :: more ++ [tld].
Proof.
  unfold labels. intros Hfirst Hmore Htld. revert first Hfirst.
  induction Hmore as [|w more Hw Hmore IH]; intros first Hfirst.
  - rewrite append_nil_l, split_dot by exact Hfirst.
    now rewrite split_dotless.
  - cbn [dotted]. rewrite append_assoc, append_cons, split_dot by exact Hfirst.
    now rewrite IH.
Qed.

Lemma split_cons (sep : ascii) (s : string) :
  exists w ws, split sep s = w :: ws.
Proof.
  destruct s as [|c r]; [now exists EmptyString, []|].
  simpl. destruct (Ascii.eqb c sep); [now eexists _, _|].
  destruct (split sep r); now eexists _, _.
Qed.

(** Joining the labels with dots gives the text back. *)
Lemma join_labels (s : string) (w : string) (ws : list string) :
  labels s = w :: ws -> s = w +:+ dotted ws.
Proof.
  unfold labels. revert w ws. induction s as [|c r IH]; intros w ws.
  - simpl. now intros [= <- <-].
  - simpl. destruct (Ascii.eqb_spec c ".") as [-> | Hc].
    + intros [= <- <-]. destruct (split_cons "." r) as (x & xs & E).
      rewrite E. cbn [dotted]. rewrite append_nil_l, append_cons.
      now rewrite <- (IH x xs E).
    + destruct (split_cons "." r) as (x & xs & E). rewrite E.
      intros [= <- <-]. rewrite append_cons. now rewrite <- (IH x xs E).
Qed.

Lemma dotted_app (us vs : list string) :
  dotted (us ++ vs) = dotted us +:+ dotted vs.
Proof.
  induction us as [|u us IH]; [reflexivity|].
  cbn [dotted app]. now rewrite IH, append_assoc.
Qed.

Lemma at_eol_cases (tail : string) :
  at_eol tail = true <-> tail = EmptyString \/ tail = String LF EmptyString.
Proof.
  destruct tail as [|c [|d r]]; simpl.
  - intuition.
  - rewrite Ascii.eqb_eq. unfold LF. split; [intros ->; now right|].
    intros [H|[= ->]]; [discriminate | reflexivity].
  - split; [discriminate | intros [H|H]; discriminate].
Qed.

(** The domain test accepts exactly the host names and the host names
    followed by one line feed. *)
Theorem _is_domain_spec (s : string) :
  _is_domain s = true <->
  exists body, hostname body /\ (s = body \/ s = body +:+ String LF EmptyString).
Proof.
  unfold _is_domain. rewrite DOMAIN_REGEX_spec. split.
  - intros (first & more & tld & tail & -> & Hfirst & Hmore & Htld & Heol).
    exists (first +:+ dotted more +:+ String "." tld). split.
    + exists first, more, tld. split; [|now auto].
      apply labels_dotted;
        [now apply label_ok_dotless | | now apply tld_ok_dotless].
      eapply Forall_impl; [exact Hmore|]. apply label_ok_dotless.
    + apply at_eol_cases in Heol as [-> | ->].
      * left. now rewrite append_cons, !append_nil_r.
      * right. now rewrite !append_assoc.
  - intros (body & (first & more & tld & Hl & Hfirst & Hmore & Htld) & Hs).
    apply join_labels in Hl. rewrite dotted_app in Hl. cbn [dotted] in Hl.
    rewrite append_nil_r in Hl.
    destruct Hs as [-> | ->].
    + exists first, more, tld, EmptyString. rewrite Hl.
      split; [now rewrite append_cons, !append_nil_r | now auto].
    + exists first, more, tld, (String LF EmptyString). rewrite Hl.
      split; [now rewrite !append_assoc|].
      now auto.
Qed.





End DomainFacts.

(** ** The match engine *)

Module ClientFacts.
Import Py Json Effects Effects.Notations Observables Client Terms PyFacts.

Lemma lower_nonempty (s : string) : s <> EmptyString -> lower s <> EmptyString.
Proof. destruct s; [congruence | discriminate]. Qed.

Lemma node_falsy_no_match (n : node) (target : string) :
  node_falsy n = true -> candidate_matches n target = false.
Proof.
  unfold node_falsy, candidate_matches, hash_entries, field_is.
  intros Hn. apply andb_prop in Hn as [Ha Hh].
  apply bool_decide_eq_true in Ha. rewrite Ha.
  destruct (hashes n); try discriminate. simpl.
  now rewrite !lookup_empty.
Qed.

(** How one of the three fields enters the comparison: a string is
    compared lower-cased, a missing field as the empty text. *)
Lemma observed_field (n : node) (target key : string) :
  target <> EmptyString ->
  target <> "none" \/ attrs n !! key <> Some JNull ->
  String.eqb target (lower (str (get_or (attrs n) key ""))) = field_is n target key.
Proof.
  intros Hne Hnull. unfold get_or, field_is.
  destruct (attrs n !! key) as [[|s]|].
  - change (lower (str JNull)) with "none".
    apply String.eqb_neq. destruct Hnull; congruence.
  - apply String.eqb_sym.
  - now apply String.eqb_neq.
Qed.

Lemma observed_hash (entry : gmap string jstr) (target : string) :
  target <> EmptyString ->
  target <> "none" \/ entry !! "hash" <> Some JNull ->
  String.eqb (lower (str (get_or entry "hash" ""))) target = hash_is target entry.
Proof.
  intros Hne Hnull. unfold get_or, hash_is.
  destruct (entry !! "hash") as [[|s]|].
  - change (lower (str JNull)) with "none".
    apply String.eqb_neq. destruct Hnull; congruence.
  - reflexivity.
  - apply String.eqb_neq. simpl. congruence.
Qed.

Lemma existsb_ext_in {A} (f g : A -> bool) (l : list A) :
  (forall x, In x l -> f x = g x) -> existsb f l = existsb g l.
Proof.
  induction l as [|a l IH]; [reflexivity|].
  intros H. simpl. rewrite (H a) by now left.
  rewrite IH; [reflexivity|]. intros x Hx. apply H. now right.
Qed.

(** On a non-empty target other than ["none"], or on a candidate without
    [null] members, [_match_observable_node] decides [candidate_matches]. *)
Lemma _match_observable_node_spec (e : edge) (target : string) :
  target <> EmptyString ->
  (target <> "none" \/ forall n, candidate_of e = Some n -> null_free n) ->
  _match_observable_node e target =
    match candidate_of e with
    | Some n => if candidate_matches n target then Some n else None
    | None => None
    end.
Proof.
  intros Hne Hnull. unfold _match_observable_node.
  destruct e as [|[| |n]]; try reflexivity. cbn [candidate_of].
  destruct (node_falsy n) eqn:Hf; [now rewrite node_falsy_no_match|].
  assert (target <> "none" \/ null_free n) as Hn.
  { destruct Hnull as [H|H]; [now left | right; now apply H]. }
  unfold candidate_matches, value_fields, observed_values. cbn [existsb].
  rewrite !observed_field; try assumption;
    try (destruct Hn as [H|[H _]]; [now left | right; apply H; simpl; tauto]).
  fold (hash_entries n).
  rewrite (existsb_ext_in _ (hash_is target) (hash_entries n)).
  - now destruct (field_is n target "observable_value"),
      (field_is n target "value"), (field_is n target "name"),
      (existsb (hash_is target) (hash_entries n)).
  - intros entry Hentry. apply observed_hash; [exact Hne|].
    destruct Hn as [H|[_ H]]; [now left | right; now apply H].
Qed.

(** The scan returns the first matching candidate, in the order received,
    and [None] when there is none. *)
Lemma scan_edges_first_match (edges : list edge) (value : string) :
  value <> EmptyString ->
  (lower value <> "none" \/
   forall e n, In e edges -> candidate_of e = Some n -> null_free n) ->
  scan_edges edges (lower value) = first_match edges value.
Proof.
  intros Hne Hnull. induction edges as [|e rest IH]; [reflexivity|].
  simpl. rewrite _match_observable_node_spec.
  - rewrite IH.
    + destruct (candidate_of e) as [n|]; [|reflexivity].
      now destruct (candidate_matches n (lower value)).
    + destruct Hnull as [H|H]; [now left | right].
      intros e' n He'. apply H. now right.
  - now apply lower_nonempty.
  - destruct Hnull as [H|H]; [now left | right].
    intros n. apply H. now left.
Qed.

(** A candidate counts as matching exactly when one of its three fields,
    or the hash of one of its hash entries, is a string that equals the
    target once lower-cased. *)
Lemma candidate_matches_iff (n : node) (target : string) :
  candidate_matches n target = true <->
  (exists key s, In key value_fields /\ attrs n !! key = Some (JStr s) /\
                 lower s = target) \/
  (exists entry h, In entry (hash_entries n) /\ entry !! "hash" = Some (JStr h) /\
                   lower h = target).
Proof.
  unfold candidate_matches. rewrite orb_true_iff, !existsb_exists. split.
  - intros [(key & Hk & Hf) | (entry & He & Hh)]; [left | right].
    + unfold field_is in Hf. destruct (attrs n !! key) as [[|s]|] eqn:E; try discriminate.
      apply String.eqb_eq in Hf. now exists key, s.
    + unfold hash_is in Hh. destruct (entry !! "hash") as [[|h]|] eqn:E; try discriminate.
      apply String.eqb_eq in Hh. now exists entry, h.
  - intros [(key & s & Hk & E & Hs) | (entry & h & He & E & Hh)]; [left | right].
    + exists key. split; [exact Hk|]. unfold field_is. rewrite E. now apply String.eqb_eq.
    + exists entry. split; [exact He|]. unfold hash_is. rewrite E. now apply String.eqb_eq.
Qed.




Section Calls.
Context `{IpAddress} `{Remote}.

(** A query is one round trip: whatever comes back, the request has
    been sent and the platform has moved on. *)
Lemma graphql_query_world (rq : request) (w : world) :
  snd (graphql_query rq w) =
    World (snd (respond (remote w) rq)) (sent w ++ [rq]).
Proof.
  unfold graphql_query, bind, post.
  destruct (respond (remote w) rq) as [rep pf]. simpl.
  destruct rep as [msg|snippet|[errors|] d]; reflexivity.
Qed.

Lemma find_observable_by_value_world
  (value : string) (types : list string) (limit : Z) (w : world) :
  snd (find_observable_by_value value types limit w) =
    World (snd (respond (remote w) (FindObservables value types limit)))
          (sent w ++ [FindObservables value types limit]).
Proof.
  unfold find_observable_by_value, bind.
  pose proof (graphql_query_world (FindObservables value types limit) w) as Hq.
  destruct (graphql_query (FindObservables value types limit) w) as [[data|e] w1];
    simpl in Hq; subst w1; [|reflexivity].
  destruct data as [[[| |[[| |es]]] ? ?]|]; reflexivity.
Qed.

Lemma _execute_create_mutation_world (mutation : request) (w : world) :
  snd (_execute_create_mutation mutation w) =
    World (snd (respond (remote w) mutation)) (sent w ++ [mutation]).
Proof.
  unfold _execute_create_mutation, bind.
  pose proof (graphql_query_world mutation w) as Hq.
  destruct (graphql_query mutation w) as [[data|e] w1];
    simpl in Hq; subst w1; [|reflexivity].
  destruct data as [[? [| |created] ?]|]; try reflexivity.
  simpl. now destruct (node_falsy created || _).
Qed.

Lemma ask_enrichment_world (entity_id : jstr) (connector_id : string) (w : world) :
  snd (ask_enrichment entity_id connector_id w) =
    World (snd (respond (remote w) (AskEnrichment entity_id connector_id)))
          (sent w ++ [AskEnrichment entity_id connector_id]).
Proof.
  unfold ask_enrichment, bind.
  pose proof (graphql_query_world (AskEnrichment entity_id connector_id) w) as Hq.
  destruct (graphql_query (AskEnrichment entity_id connector_id) w) as [[data|e] w1];
    simpl in Hq; subst w1; [|reflexivity].
  destruct data as [[? ? [| |[[| |enrichment]]]]|]; try reflexivity.
  simpl. now destruct (enrichment !! "id").
Qed.

(** The client's creation either stops before any mutation or runs the
    one mutation [creation_request] names. *)
Lemma create_observable_request (value : string) (kind : ObservableKind)
  (rq : request) :
  creation_request value kind = Some rq ->
  Client.create_observable value kind = _execute_create_mutation rq.
Proof.
  unfold creation_request, Client.create_observable, _create_domain_observable,
    _create_ip_observable, _create_hash_observable.
  destruct kind.
  - destruct (ip_address value) as [[|]|]; now intros [= <-].
  - now intros [= <-].
  - destruct (get_hash_algorithm value); now intros [= <-].
Qed.

End Calls.

End ClientFacts.

(** ** The gateway *)

Module ServerFacts.
Import Py Json Effects Effects.Notations Observables Client Server Terms.
Import PyFacts ClientFacts.

Lemma or_present (n : node) (key rest : string) :
  or_ (get (attrs n) key) rest =
    match present n key with
    | Some v => v
    | None => rest
    end.
Proof.
  unfold or_, get, present.
  now destruct (attrs n !! key) as [[|[|c s]]|].
Qed.

(** The formatter reports the record's identifier and the value picked by
    the fallback chain. *)
Lemma _format_observable_result_spec
  (record : node) (original status : string) (r : gateway_result) :
  _format_observable_result record original status = Ok r ->
  Server.status r = status /\
  attrs record !! "id" = Some (Server.id (observable r)) /\
  Server.value (observable r) = fallback_chain record original.
Proof.
  unfold _format_observable_result, fallback_chain.
  destruct (attrs record !! "id") as [i|]; [|discriminate].
  intros [= <-]. cbn [Server.status observable Server.id Server.value].
  now rewrite !or_present.
Qed.

(** A record with an [id] member is always formatted, into the answer
    built on the fallback chain. *)
Lemma _format_observable_result_total
  (record : node) (original status : string) (id : jstr) :
  attrs record !! "id" = Some id ->
  _format_observable_result record original status
  = Ok (answer status id record original).
Proof.
  intros Hid. unfold _format_observable_result, answer, fallback_chain.
  now rewrite Hid, !or_present.
Qed.


Lemma wrap_api_error_class (fallback msg : string) :
  class_of (wrap_api_error fallback msg) = "ToolError".
Proof. reflexivity. Qed.

Section Monad.
Context `{Remote}.

Lemma bind_lift_Ok {A B} (a : A) (k : A -> M B) (w : world) :
  bind (lift (Ok a)) k w = k a w.
Proof. reflexivity. Qed.

Lemma bind_run {A B} (m : M A) (k : A -> M B) (w : world) :
  bind m k w =
    match m w with
    | (Ok a, w') => k a w'
    | (Raise e, w') => (Raise e, w')
    end.
Proof. reflexivity. Qed.

Lemma except_api_run {A} (m : M A) (handler : string -> exn) (w : world) :
  except_api m handler w =
    match m w with
    | (Raise (OpenCTIAPIError msg), w') => (Raise (handler msg), w')
    | other => other
    end.
Proof. reflexivity. Qed.

Lemma except_api_world {A} (m : M A) (handler : string -> exn) (w : world) :
  snd (except_api m handler w) = snd (m w).
Proof. unfold except_api. now destruct (m w) as [[a|[]] w1]. Qed.

End Monad.

Section Tools.
Context `{IpAddress} `{Remote} `{Config}.

(** Past its local checks, [create_observable] is a search followed,
    when nothing matched, by a creation. *)
Lemma create_observable_accepted
  (value : string) (value_type : option string) (kind : ObservableKind)
  (w : world) :
  accepted value value_type kind ->
  Server.create_observable value value_type w =
    match except_api
            (Client.find_observable_by_value (strip value) (OBSERVABLE_TYPES kind) 10)
            (wrap_api_error "Failed to search for observable in OpenCTI.") w with
    | (Ok (Some existing), w1) =>
        (_format_observable_result existing value "exists", w1)
    | (Ok None, w1) =>
        match except_api
                (Client.create_observable (strip value) kind)
                (wrap_api_error "Failed to create observable in OpenCTI.") w1 with
        | (Ok created, w2) =>
            (_format_observable_result created value "created", w2)
        | (Raise e, w2) => (Raise e, w2)
        end
    | (Raise e, w1) => (Raise e, w1)
    end.
Proof.
  intros (Hguard & Hkind & settings & Hcfg).
  unfold Server.create_observable. rewrite Hguard.
  unfold bind, lift, _build_client. rewrite Hkind, Hcfg.
  now destruct (except_api _ _ w) as [[[existing|]|e] w1].
Qed.

(** A successful [create_observable] got past its local checks. *)
Lemma create_observable_ok_accepted
  (value : string) (value_type : option string) (w w' : world)
  (r : gateway_result) :
  Server.create_observable value value_type w = (Ok r, w') ->
  exists kind, accepted value value_type kind.
Proof.
  unfold Server.create_observable, accepted.
  destruct (falsy value || falsy (strip value)); [discriminate|].
  unfold bind, lift, _build_client.
  destruct (_normalize_observable_type value value_type) as [kind|e]; [|discriminate].
  destruct get_settings as [settings|[]]; try discriminate.
  intros _. exists kind. split; [reflexivity|]. split; [reflexivity|].
  now exists settings.
Qed.

End Tools.

End ServerFacts.

(** ** The specification's sample inputs, run on the model *)

Module Scenarios.
Import Py Json Effects Observables Client Server Terms.

Example classify_samples :
  classify "192.168.1.1" = Some KindIp /\
  classify "example.com" = Some KindDomain /\
  classify "d41d8cd98f00b204e9800998ecf8427e" = Some KindHash /\
  classify "D41D8CD98F00B204E9800998ECF8427E" = Some KindHash /\
  classify "d41d8cd98f00b204e9800998ecf8427" = None /\
  classify "-bad.com" = None /\
  classify "bad-.com" = None /\
  classify "not a value!!" = None /\
  classify "localhost" = None.
Proof. vm_compute. repeat split. Qed.

Example match_engine_samples :
  scan_edges [Edge (Val example_com); Edge (Val md5_file)] (lower "example.com")
  = Some example_com /\
  scan_edges [Edge (Val example_com); Edge (Val md5_file)]
    (lower "d41d8cd98f00b204e9800998ecf8427e")
  = Some md5_file /\
  scan_edges [Edge (Val example_com); Edge (Val md5_file)] (lower "example.org")
  = None /\
  scan_edges [EdgeNull; Edge Absent; Edge Null; Edge (Val empty_node)]
    (lower "example.com")
  = None.
Proof. vm_compute. repeat split. Qed.

(** Nothing found for an address: an IPv4 record is created. *)
Example scenario_created :
  run_create "8.8.8.8"
    [found [];
     added (Node {[ "id" := JStr "obs-3"; "entity_type" := JStr "IPv4-Addr";
                    "observable_value" := JStr "8.8.8.8" ]} Absent)]
  = (Ok (GatewayResult "created"
           (ObservableView (JStr "obs-3") (JStr "IPv4-Addr") "8.8.8.8")),
     [FindObservables "8.8.8.8" ["IPv4-Addr"; "IPv6-Addr"] 10;
      CreateIPv4 "IPv4-Addr" "8.8.8.8"]).
Proof. vm_compute. reflexivity. Qed.

(** A matching record is found: nothing is created. *)
Example scenario_exists :
  run_create "example.com" [found [Edge (Val example_com)]]
  = (Ok (GatewayResult "exists"
           (ObservableView (JStr "obs-1") (JStr "Domain-Name") "EXAMPLE.com")),
     [FindObservables "example.com" ["Domain-Name"] 10]).
Proof. vm_compute. reflexivity. Qed.

(** A transport failure during the search is not an [OpenCTIAPIError] and
    passes through the tool unchanged. *)
Example scenario_unreachable :
  run_create "example.com" []
  = (Raise (HTTPError "connection refused"),
     [FindObservables "example.com" ["Domain-Name"] 10]).
Proof. vm_compute. reflexivity. Qed.

End Scenarios.

(** * The claims *)

Import Py Re Observables Json Effects Client Server Terms.
Import PyFacts ReFacts ObservablesFacts DomainFacts ClientFacts ServerFacts.

(** ** Hash algorithm resolver *)

(** C3. For a string of length 32 the resolver returns MD5, for length 40
    SHA-1, for length 64 SHA-256 and for length 128 SHA-512; for a string of
    any other length it raises the invalid-length [ValueError] and returns no
    algorithm. *)
Theorem hash_algorithm_by_length (hash_value : string) :
  get_hash_algorithm hash_value =
    if Nat.eqb (len hash_value) 32 then Ok "MD5"
    else if Nat.eqb (len hash_value) 40 then Ok "SHA-1"
    else if Nat.eqb (len hash_value) 64 then Ok "SHA-256"
    else if Nat.eqb (len hash_value) 128 then Ok "SHA-512"
    else Raise (ValueError ("Invalid hash length " +:+ str_of_nat (len hash_value)
                            +:+ ". Expected one of: [32, 40, 64, 128]")).
Proof.
  unfold get_hash_algorithm, algorithm_map.
  generalize (len hash_value) as n. intros n.
  destruct (Nat.eqb_spec n 32) as [->|H32]; [reflexivity|].
  destruct (Nat.eqb_spec n 40) as [->|H40]; [reflexivity|].
  destruct (Nat.eqb_spec n 64) as [->|H64]; [reflexivity|].
  destruct (Nat.eqb_spec n 128) as [->|H128]; [reflexivity|].
  rewrite !lookup_insert_ne by congruence.
  now rewrite lookup_singleton_ne by congruence.
Qed.

(** ** Classifier *)

(** C2. A string made only of hexadecimal characters, of length 32, 40, 64
    or 128, that the address parser rejects is classified as a hash, and so
    never as a domain. *)
Theorem hex_digest_is_hash `{IpAddress} (s : string) :
  all_chars is_hex s = true ->
  In (len s) [32; 40; 64; 128] ->
  ip_address s = None ->
  infer_observable_type s = Some KindHash /\
  infer_observable_type s <> Some KindDomain.
Proof.
  intros Hhex Hlen Hip.
  assert (infer_observable_type s = Some KindHash) as E; [|now rewrite E].
  unfold infer_observable_type.
  rewrite strip_solid by (eapply all_chars_impl; [apply is_hex_not_space | exact Hhex]).
  destruct s as [|c r] eqn:Es; [simpl in Hlen; intuition discriminate|].
  rewrite <- Es in *.
  replace (falsy s) with false by now rewrite Es.
  unfold _is_ip_address. rewrite Hip.
  unfold _is_hash. rewrite lower_length.
  replace (existsb (Nat.eqb (len s)) HASH_LENGTHS) with true.
  - rewrite HASH_REGEX_accepts; [reflexivity | | ].
    + rewrite Es. discriminate.
    + apply all_chars_lower; [apply is_hex_lower | exact Hhex].
  - symmetry. apply existsb_exists. exists (len s).
    split; [exact Hlen | apply Nat.eqb_refl].
Qed.

Lemma hex_digest_is_hash_md5 :
  infer_observable_type (H := dotted_quad) "d41d8cd98f00b204e9800998ecf8427e"
    = Some KindHash /\
  infer_observable_type (H := dotted_quad) "d41d8cd98f00b204e9800998ecf8427e"
    <> Some KindDomain.
Proof.
  apply (@hex_digest_is_hash dotted_quad "d41d8cd98f00b204e9800998ecf8427e").
  - vm_compute. reflexivity.
  - left. vm_compute. reflexivity.
  - vm_compute. reflexivity.
Defined.

(** C10. The classifier gives a string and its trimmed form the same
    answer, and answers [None] on the empty string and on a string of white
    space only. *)
Theorem classifier_trims `{IpAddress} (s : string) :
  infer_observable_type (strip s) = infer_observable_type s /\
  (all_chars isspace s = true -> infer_observable_type s = None).
Proof.
  split.
  - unfold infer_observable_type. now rewrite strip_idem.
  - intros Hs. unfold infer_observable_type. now rewrite strip_blank.
Qed.

Lemma classifier_trims_blank :
  infer_observable_type (H := dotted_quad) (String " " (String "009" (String LF "")))
    = None.
Proof.
  apply (@classifier_trims dotted_quad (String " " (String "009" (String LF "")))).
  vm_compute. reflexivity.
Defined.

(** ** Domain test *)




(** ** Match engine *)

(** C1, at a failing input.  A file whose [name] is JSON [null] is returned
    for the target "none", although none of its fields and none of its hashes
    equals that target; through the tool, looking up the value "none" as a
    hash reports this file as the existing observable. *)
Theorem null_name_matches_target_none :
  scan_edges [Edge (Val unnamed_file)] (lower "none") = Some unnamed_file /\
  first_match [Edge (Val unnamed_file)] "none" = None /\
  Server.create_observable (H := dotted_quad) (H0 := scripted) (H1 := sample_settings)
    "none" (Some "hash") (@World scripted [found [Edge (Val unnamed_file)]] [])
  = (Ok (GatewayResult "exists"
           (ObservableView (JStr "file-1") (JStr "StixFile")
              "d41d8cd98f00b204e9800998ecf8427e")),
     @World scripted [] [FindObservables "none" ["Artifact"; "StixFile"] 10]).
Proof. vm_compute. repeat split. Qed.




(** ** Gateway *)

(** C4. The gateway answers with a result exactly when the search returned
    a record, or returned none and the creation returned a record, and that
    record has an [id] member.  The result then has the status "exists" or
    "created" respectively, and reports as its value the record's
    [observable_value] if present and non-empty, otherwise its [value],
    otherwise its [name], otherwise the caller's input as given. *)
Theorem reported_value_follows_fallback_chain `{IpAddress} `{Remote} `{Config}
  (value : string) (value_type : option string) (w w' : world)
  (r : gateway_result) :
  Server.create_observable value value_type w = (Ok r, w') <->
  exists kind record id st,
    accepted value value_type kind /\
    attrs record !! "id" = Some id /\
    r = GatewayResult st
          (ObservableView id (get (attrs record) "entity_type")
             (fallback_chain record value)) /\
    ((st = "exists" /\
      Client.find_observable_by_value (strip value) (OBSERVABLE_TYPES kind) 10 w
      = (Ok (Some record), w')) \/
     (st = "created" /\
      exists w1,
        Client.find_observable_by_value (strip value) (OBSERVABLE_TYPES kind) 10 w
        = (Ok None, w1) /\
        Client.create_observable (strip value) kind w1 = (Ok record, w'))).
Proof.
  split.
  - intros Hrun.
    destruct (create_observable_ok_accepted _ _ _ _ _ Hrun) as (kind & Hacc).
    rewrite (create_observable_accepted _ _ kind w Hacc) in Hrun.
    unfold except_api in Hrun.
    destruct (Client.find_observable_by_value (strip value) (OBSERVABLE_TYPES kind) 10 w)
      as [[[existing|]|[]] w1] eqn:Hfind; try discriminate.
    + injection Hrun as Hfmt <-.
      destruct (attrs existing !! "id") as [id|] eqn:Hid.
      * rewrite (_format_observable_result_total _ _ _ id Hid) in Hfmt.
        injection Hfmt as <-.
        exists kind, existing, id, "exists".
        split; [exact Hacc|]. split; [exact Hid|]. split; [reflexivity|].
        left. now split.
      * unfold _format_observable_result in Hfmt. rewrite Hid in Hfmt.
        discriminate.
    + destruct (Client.create_observable (strip value) kind w1)
        as [[created|[]] w2] eqn:Hcreate; try discriminate.
      injection Hrun as Hfmt <-.
      destruct (attrs created !! "id") as [id|] eqn:Hid.
      * rewrite (_format_observable_result_total _ _ _ id Hid) in Hfmt.
        injection Hfmt as <-.
        exists kind, created, id, "created".
        split; [exact Hacc|]. split; [exact Hid|]. split; [reflexivity|].
        right. split; [reflexivity|]. now exists w1.
      * unfold _format_observable_result in Hfmt. rewrite Hid in Hfmt.
        discriminate.
  - intros (kind & record & id & st & Hacc & Hid & -> & Hrun).
    rewrite (create_observable_accepted _ _ kind w Hacc).
    unfold except_api.
    destruct Hrun as [(-> & Hfind) | (-> & w1 & Hfind & Hcreate)].
    + rewrite Hfind. now rewrite (_format_observable_result_total _ _ _ id Hid).
    + rewrite Hfind, Hcreate.
      now rewrite (_format_observable_result_total _ _ _ id Hid).
Qed.

Lemma reported_value_falls_back_to_input :
  Server.create_observable (H := dotted_quad) (H0 := scripted) (H1 := sample_settings)
    " example.org " None
    (@World scripted
       [found [];
        added (Node {[ "id" := JStr "obs-4"; "entity_type" := JStr "Domain-Name";
                       "observable_value" := JStr ""; "value" := JNull ]} Absent)]
       [])
  = (Ok (GatewayResult "created"
           (ObservableView (JStr "obs-4") (JStr "Domain-Name") " example.org ")),
     @World scripted []
       [FindObservables "example.org" ["Domain-Name"] 10;
        CreateDomain "Domain-Name" "example.org"]).
Proof.
  apply (proj2 (@reported_value_follows_fallback_chain
                  dotted_quad scripted sample_settings
                  " example.org " None _ _ _)).
  exists KindDomain,
    (Node {[ "id" := JStr "obs-4"; "entity_type" := JStr "Domain-Name";
             "observable_value" := JStr ""; "value" := JNull ]} Absent),
    (JStr "obs-4"), "created".
  split.
  { split; [vm_compute; reflexivity|]. split; [vm_compute; reflexivity|].
    eexists. reflexivity. }
  split; [vm_compute; reflexivity|]. split; [vm_compute; reflexivity|].
  right. split; [reflexivity|].
  exists (@World scripted
            [added (Node {[ "id" := JStr "obs-4"; "entity_type" := JStr "Domain-Name";
                            "observable_value" := JStr ""; "value" := JNull ]} Absent)]
            [FindObservables "example.org" ["Domain-Name"] 10]).
  split; vm_compute; reflexivity.
Defined.

(** C8, as the code has it.  For a value that is not empty once trimmed,
    whose kind the classifier cannot infer, and with no explicit kind, the
    gateway fails with the cannot-infer error, and the platform has
    received nothing. *)
Theorem uninferable_value_is_ambiguous `{IpAddress} `{Remote} `{Config}
  (value : string) (w : world) :
  strip value <> EmptyString ->
  infer_observable_type value = None ->
  Server.create_observable value None w = (Raise AmbiguousInput, w).
Proof.
  intros Hne Hinfer. unfold Server.create_observable.
  destruct value as [|c r]; [now elim Hne|].
  destruct (strip (String c r)) as [|c' r'] eqn:Es; [now elim Hne|].
  cbn [falsy orb]. unfold bind, lift, _normalize_observable_type.
  now rewrite Hinfer.
Qed.

Lemma uninferable_value_is_ambiguous_example :
  Server.create_observable (H := dotted_quad) (H0 := scripted) (H1 := sample_settings)
    "not a value!!" None (@World scripted [] [])
  = (Raise AmbiguousInput, @World scripted [] []).
Proof.
  apply (@uninferable_value_is_ambiguous dotted_quad scripted sample_settings
           "not a value!!" (@World scripted [] [])).
  - vm_compute. discriminate.
  - vm_compute. reflexivity.
Defined.

(** C8, as stated, fails on a value of white space only: it is non-empty,
    its kind cannot be inferred and no kind is given, yet the gateway fails
    with the empty-value error and not with the cannot-infer one. *)
Lemma blank_value_is_invalid_input :
  " " <> EmptyString /\
  infer_observable_type (H := dotted_quad) " " = None /\
  Server.create_observable (H := dotted_quad) (H0 := scripted) (H1 := sample_settings)
    " " None (@World scripted [] [])
  = (Raise InvalidInput, @World scripted [] []) /\
  InvalidInput <> AmbiguousInput.
Proof.
  split; [discriminate|]. split; [vm_compute; reflexivity|].
  split; [vm_compute; reflexivity | discriminate].
Qed.




(** C9. In the enrichment tool, once the local checks have passed and the
    search has returned, the platform has received the search and nothing
    else; if no candidate matched, the tool fails with the not-found error
    there, so no enrichment is requested; if a record matched, at most one
    further request is sent, and it asks for the enrichment of that record's
    identifier by the configured connector. *)
Theorem enrichment_only_on_match `{IpAddress} `{Remote} `{Config}
  (value : string) (value_type : option string) (kind : ObservableKind)
  (settings : OpenCTISettings) (connector : string)
  (matched : option node) (w w1 : world) :
  falsy value || falsy (strip value) = false ->
  get_settings = Ok settings ->
  virustotal_connector_id settings = Some connector ->
  connector <> EmptyString ->
  _normalize_observable_type value value_type = Ok kind ->
  Client.find_observable_by_value (strip value) (OBSERVABLE_TYPES kind) 10 w
  = (Ok matched, w1) ->
  sent w1 = sent w ++ [FindObservables (strip value) (OBSERVABLE_TYPES kind) 10] /\
  match matched with
  | None =>
      ask_virustotal_enrichment value value_type w = (Raise (NotFound value kind), w1)
  | Some record =>
      exists outcome w2,
        ask_virustotal_enrichment value value_type w = (outcome, w2) /\
        (sent w2 = sent w1 \/
         exists id,
           attrs record !! "id" = Some id /\
           sent w2 = sent w1 ++ [AskEnrichment id connector])
  end.
Proof.
  intros Hguard Hcfg Hconn Hne Hkind Hfind. split.
  - pose proof (find_observable_by_value_world
                  (strip value) (OBSERVABLE_TYPES kind) 10 w) as Hw.
    rewrite Hfind in Hw. simpl in Hw. now rewrite Hw.
  - unfold ask_virustotal_enrichment. rewrite Hguard, Hcfg, bind_lift_Ok, Hconn.
    destruct connector as [|c cs]; [now elim Hne|].
    rewrite Hkind, bind_lift_Ok. unfold _build_client. rewrite Hcfg, bind_lift_Ok.
    rewrite bind_run, (except_api_run _ _ w), Hfind.
    destruct matched as [record|]; [|reflexivity].
    destruct (attrs record !! "id") as [id|] eqn:Hid.
    + eexists _, _. split; [apply surjective_pairing|]. right.
      exists id. split; [reflexivity|].
      rewrite bind_run.
      pose proof (except_api_world (ask_enrichment id (String c cs))
                    (wrap_api_error "Failed to request enrichment from OpenCTI.") w1) as Hw.
      rewrite ask_enrichment_world in Hw.
      destruct (except_api _ _ w1) as [[work|e] w2]; simpl in Hw |- *; now rewrite Hw.
    + eexists _, _. split; [reflexivity|]. now left.
Qed.

Lemma enrichment_not_found_example :
  sent (@World scripted [] [FindObservables "example.org" ["Domain-Name"] 10])
  = sent (@World scripted [found [Edge (Val example_com)]] [])
    ++ [FindObservables (strip "example.org") (OBSERVABLE_TYPES KindDomain) 10] /\
  ask_virustotal_enrichment (H := dotted_quad) (H0 := scripted) (H1 := sample_settings)
    "example.org" None (@World scripted [found [Edge (Val example_com)]] [])
  = (Raise (NotFound "example.org" KindDomain),
     @World scripted [] [FindObservables "example.org" ["Domain-Name"] 10]).
Proof.
  refine (@enrichment_only_on_match dotted_quad scripted sample_settings
            "example.org" None KindDomain
            (Settings "https://opencti.example" "token" true (Some "vt-connector"))
            "vt-connector" None
            (@World scripted [found [Edge (Val example_com)]] [])
            (@World scripted [] [FindObservables "example.org" ["Domain-Name"] 10])
            _ _ _ _ _ _).
  - vm_compute. reflexivity.
  - reflexivity.
  - reflexivity.
  - discriminate.
  - vm_compute. reflexivity.
  - vm_compute. reflexivity.
Defined.

(** * Further properties of the code *)

(** ** The hash test and the classifier *)

Module ClassifierFacts.
Import Py Re Re.Notations Observables Terms MoreTerms.
Import PyFacts ReFacts ObservablesFacts DomainFacts.

Lemma is_hex_lower_char (c : ascii) : is_hex (lower_char c) = is_hex c.
Proof. by_cases_on_char c. Qed.

Lemma lower_char_LF (c : ascii) : lower_char c = LF -> c = LF.
Proof.
  destruct c as [[] [] [] [] [] [] [] []]; vm_compute; intros E;
    first [reflexivity | discriminate E].
Qed.

Lemma is_hex_not_dot (c : ascii) : is_hex c = true -> Ascii.eqb c "." = false.
Proof. by_cases_on_char c. Qed.

Lemma isspace_LF : isspace LF = true.
Proof. reflexivity. Qed.

Lemma all_hex_lower (s : string) :
  all_chars is_hex (lower s) = all_chars is_hex s.
Proof.
  induction s as [|c r IH]; [reflexivity|].
  simpl. now rewrite is_hex_lower_char, IH.
Qed.

(** A text whose lower-cased form ends in a line feed ends in one. *)
Lemma lower_ends_LF (s w : string) :
  lower s = w +:+ String LF EmptyString ->
  exists v, s = v +:+ String LF EmptyString /\ lower v = w.
Proof.
  revert w. induction s as [|c r IH]; intros w E.
  - destruct w; discriminate.
  - destruct w as [|a w].
    + rewrite append_nil_l in E. simpl in E. injection E as Hc Hr.
      destruct r; [|discriminate]. apply lower_char_LF in Hc as ->.
      now exists EmptyString.
    + rewrite append_cons in E. simpl in E. injection E as Hc Hr.
      destruct (IH w Hr) as (v & -> & Hv).
      exists (String c v). split; [now rewrite append_cons|].
      simpl. now rewrite Hc, Hv.
Qed.

Lemma lower_append (u v : string) : lower (u +:+ v) = lower u +:+ lower v.
Proof.
  induction u as [|c r IH]; [reflexivity|].
  rewrite append_cons. simpl. rewrite append_cons. now f_equal.
Qed.

(** [HASH_REGEX] accepts exactly the non-empty texts of hexadecimal
    characters and those texts followed by one line feed. *)
Lemma HASH_REGEX_spec (t : string) :
  matches HASH_REGEX t = true <->
  exists w, 1 <= len w /\ all_chars is_hex w = true /\
            (t = w \/ t = w +:+ String LF EmptyString).
Proof.
  rewrite matches_spec. unfold HASH_REGEX. split.
  - intros (q & Hq).
    apply run_cat in Hq as (m1 & H1 & Hq). cbn [run before] in H1.
    destruct H1 as [<- | []].
    apply run_cat in Hq as (m2 & H2 & Hq). cbn [run] in H2.
    apply iterate_class_spec in H2 as (w & Hlen & Hall & [E _]).
    cbn [run] in Hq. destruct (at_eol (ahead m2)) eqn:Heol; [|destruct Hq].
    exists w. split; [lia|].
    split; [now rewrite <- (all_chars_ext _ _ _ is_hex_in_class)|].
    cbn [ahead] in E. rewrite E.
    apply at_eol_cases in Heol as [-> | ->]; [left; apply append_nil_r | now right].
  - intros (w & Hlen & Hall & Ht).
    assert (exists tail, t = w +:+ tail /\ at_eol tail = true) as (tail & -> & Heol).
    { destruct Ht as [-> | ->].
      - exists EmptyString. now rewrite append_nil_r.
      - now exists (String LF EmptyString). }
    exists (Pos (last_char None w) tail).
    apply run_cat. exists (Pos None (w +:+ tail)). split; [now left|].
    apply run_cat. exists (Pos (last_char None w) tail). split.
    + cbn [run]. apply iterate_class_spec. exists w. split; [|split].
      * cbn [ahead]. change String.length with len. rewrite length_append. lia.
      * now rewrite (all_chars_ext _ _ _ is_hex_in_class).
      * apply reads_ahead.
    + cbn [run ahead]. rewrite Heol. now left.
Qed.

(** What [_is_hash] accepts. *)
Lemma _is_hash_spec (s : string) :
  _is_hash s = true <->
  In (len s) HASH_LENGTHS /\
  exists w, all_chars is_hex w = true /\ (s = w \/ s = w +:+ String LF EmptyString).
Proof.
  unfold _is_hash. rewrite andb_true_iff, lower_length, HASH_REGEX_spec.
  rewrite existsb_exists. split.
  - intros [(n & Hn & E) (w & Hlen & Hall & Hs)].
    apply Nat.eqb_eq in E. subst n. split; [exact Hn|].
    destruct Hs as [Hs | Hs].
    + exists s. split; [|now left]. now rewrite <- all_hex_lower, Hs.
    + apply lower_ends_LF in Hs as (v & -> & Hv).
      exists v. split; [|now right]. now rewrite <- all_hex_lower, Hv.
  - intros [Hlen (w & Hall & Hs)]. split.
    + exists (len s). split; [exact Hlen | apply Nat.eqb_refl].
    + assert (1 <= len s) as H1.
      { unfold HASH_LENGTHS in Hlen. simpl in Hlen. lia. }
      destruct Hs as [-> | ->].
      * exists (lower w). rewrite lower_length, all_hex_lower. now auto.
      * exists (lower w). rewrite lower_length, all_hex_lower, lower_append.
        split; [|split; [exact Hall | now right]].
        rewrite length_append in H1. unfold HASH_LENGTHS in Hlen.
        rewrite length_append in Hlen. simpl in Hlen, H1. lia.
Qed.

Lemma all_chars_dotless_app (u v : string) :
  dotless (u +:+ v) <-> dotless u /\ dotless v.
Proof. unfold dotless. now rewrite all_chars_app, andb_true_iff. Qed.

Lemma _is_hash_dotless (s : string) : _is_hash s = true -> dotless s.
Proof.
  intros Hs. apply _is_hash_spec in Hs as (_ & w & Hall & Hs).
  assert (dotless w) as Hw.
  { eapply all_chars_impl; [|exact Hall].
    intros c Hc. now rewrite (is_hex_not_dot c Hc). }
  destruct Hs as [-> | ->]; [exact Hw|].
  apply all_chars_dotless_app. split; [exact Hw | reflexivity].
Qed.

Lemma _is_domain_has_dot (s : string) : _is_domain s = true -> ~ dotless s.
Proof.
  unfold _is_domain. intros Hs Hd.
  apply DOMAIN_REGEX_spec in Hs as (first & more & tld & tail & -> & _).
  apply all_chars_dotless_app in Hd as [_ Hd].
  apply all_chars_dotless_app in Hd as [_ Hd].
  rewrite append_cons in Hd. discriminate Hd.
Qed.

(** The trimmed form of a string, when not empty, ends in a character that
    is not white space. *)
Lemma rstrip_last (x : string) (b : option ascii) :
  rstrip x <> EmptyString ->
  exists z, last_char b (rstrip x) = Some z /\ isspace z = false.
Proof.
  revert b. induction x as [|c r IH]; intros b Hne; [now elim Hne|].
  simpl in Hne |- *. destruct (rstrip r) as [|c' r'] eqn:E.
  - destruct (isspace c) eqn:Ec; [now elim Hne|]. now exists c.
  - change (last_char b (String c (String c' r')))
      with (last_char (Some c) (String c' r')).
    apply IH. discriminate.
Qed.

Lemma strip_no_trailing_LF (s body : string) :
  strip s <> body +:+ String LF EmptyString.
Proof.
  intros E. destruct (rstrip_last (lstrip s) None) as (z & Hz & Hs).
  - fold (strip s). rewrite E. destruct body; discriminate.
  - fold (strip s) in Hz. rewrite E, last_char_app in Hz. simpl in Hz.
    injection Hz as <-. discriminate Hs.
Qed.

Lemma hash_and_domain_tests_disjoint_aux (s : string) :
  _is_domain s = true -> _is_hash s = false.
Proof.
  intros Hd. destruct (_is_hash s) eqn:Hh; [|reflexivity].
  elim (_is_domain_has_dot s Hd). now apply _is_hash_dotless.
Qed.

Lemma infer_hash_spec `{IpAddress} (s : string) :
  infer_observable_type s = Some KindHash <->
  ip_address (strip s) = None /\ hex_digest (strip s).
Proof.
  unfold infer_observable_type, _is_ip_address, hex_digest. split.
  - destruct (falsy (strip s)); [discriminate|].
    destruct (ip_address (strip s)); [discriminate|].
    destruct (_is_hash (strip s)) eqn:Hh;
      [|destruct (_is_domain (strip s)); discriminate].
    intros _. split; [reflexivity|].
    apply _is_hash_spec in Hh as (Hlen & w & Hall & [E | E]).
    + now rewrite E in *.
    + now elim (strip_no_trailing_LF s w).
  - intros (Hip & Hall & Hlen). rewrite Hip.
    assert (_is_hash (strip s) = true) as ->.
    { apply _is_hash_spec. split; [exact Hlen|]. exists (strip s). now auto. }
    destruct (strip s); [simpl in Hlen; intuition discriminate | reflexivity].
Qed.

Lemma infer_domain_spec `{IpAddress} (s : string) :
  infer_observable_type s = Some KindDomain <->
  ip_address (strip s) = None /\ hostname (strip s).
Proof.
  unfold infer_observable_type, _is_ip_address. split.
  - destruct (falsy (strip s)); [discriminate|].
    destruct (ip_address (strip s)); [discriminate|].
    destruct (_is_hash (strip s)); [discriminate|].
    destruct (_is_domain (strip s)) eqn:Hd; [|discriminate].
    intros _. split; [reflexivity|].
    apply _is_domain_spec in Hd as (body & Hbody & [E | E]).
    + now rewrite E.
    + now elim (strip_no_trailing_LF s body).
  - intros (Hip & Hhost). rewrite Hip.
    assert (_is_domain (strip s) = true) as Hd.
    { apply _is_domain_spec. exists (strip s). now auto. }
    pose proof (hash_and_domain_tests_disjoint_aux (strip s) Hd) as Hh.
    rewrite Hh, Hd.
    destruct (strip s); [discriminate Hd | reflexivity].
Qed.

End ClassifierFacts.

(** ** The gateway's requests *)

Module GatewayFacts.
Import Py Json Effects Effects.Notations Observables Client Server Terms MoreTerms.
Import PyFacts ClientFacts ServerFacts ClassifierFacts.

Lemma get_hash_algorithm_digest (s : string) :
  In (len s) HASH_LENGTHS -> exists algo, get_hash_algorithm s = Ok algo.
Proof.
  unfold get_hash_algorithm, HASH_LENGTHS.
  intros [<- | [<- | [<- | [<- | []]]]]; eexists; reflexivity.
Qed.

Lemma get_hash_algorithm_raises (s : string) (e : exn) :
  get_hash_algorithm s = Raise e -> exists msg, e = ValueError msg.
Proof.
  unfold get_hash_algorithm. destruct (algorithm_map !! len s); [discriminate|].
  intros [= <-]. now eexists.
Qed.

Lemma kind_of_name_kind_name (kind : ObservableKind) :
  kind_of_name (kind_name kind) = Some kind.
Proof. now destruct kind. Qed.

Lemma kind_of_name_inv (s : string) (kind : ObservableKind) :
  kind_of_name s = Some kind -> s = kind_name kind.
Proof.
  unfold kind_of_name.
  destruct (String.eqb_spec s "ip") as [->|_]; [now intros [= <-]|].
  destruct (String.eqb_spec s "domain") as [->|_]; [now intros [= <-]|].
  destruct (String.eqb_spec s "hash") as [->|_]; [now intros [= <-]|].
  discriminate.
Qed.

Section Calls.
Context `{IpAddress} `{Remote}.

Lemma except_api_Ok {A} (m : M A) (handler : string -> exn) (w w1 : world) (a : A) :
  except_api m handler w = (Ok a, w1) <-> m w = (Ok a, w1).
Proof.
  unfold except_api. destruct (m w) as [[a'|[]] w']; split; congruence.
Qed.

(** The client's creation sends the mutation [creation_request] names, or
    nothing when there is none. *)
Lemma create_observable_world (value : string) (kind : ObservableKind) (w : world) :
  snd (Client.create_observable value kind w) =
    match creation_request value kind with
    | Some rq => World (snd (respond (remote w) rq)) (sent w ++ [rq])
    | None => w
    end.
Proof.
  destruct (creation_request value kind) as [rq|] eqn:E.
  - rewrite (create_observable_request _ _ rq E).
    apply _execute_create_mutation_world.
  - unfold creation_request in E.
    unfold Client.create_observable, _create_domain_observable,
      _create_ip_observable, _create_hash_observable.
    destruct kind.
    + now destruct (ip_address value) as [[|]|].
    + discriminate.
    + now destruct (get_hash_algorithm value) as [algo|[]].
Qed.

(** Without a creation request the client fails with its own error. *)
Lemma create_observable_no_request (value : string) (kind : ObservableKind) (w : world) :
  creation_request value kind = None ->
  exists msg, Client.create_observable value kind w = (Raise (OpenCTIAPIError msg), w).
Proof.
  unfold creation_request, Client.create_observable, _create_domain_observable,
    _create_ip_observable, _create_hash_observable.
  destruct kind.
  - destruct (ip_address value) as [[|]|]; try discriminate. intros _. now eexists.
  - discriminate.
  - destruct (get_hash_algorithm value) as [algo|e] eqn:E; [discriminate|].
    intros _. apply get_hash_algorithm_raises in E as (msg & ->). now eexists.
Qed.

(** An inferred kind always comes with a creation request. *)
Lemma inferred_creation_request (value : string) (kind : ObservableKind) :
  infer_observable_type value = Some kind ->
  exists rq, creation_request (strip value) kind = Some rq.
Proof.
  intros Hk. destruct kind; unfold creation_request.
  - unfold infer_observable_type, _is_ip_address in Hk.
    destruct (falsy (strip value)); [discriminate|].
    destruct (ip_address (strip value)) as [[|]|]; [now eexists | now eexists|].
    destruct (_is_hash (strip value)); [discriminate|].
    destruct (_is_domain (strip value)); discriminate.
  - now eexists.
  - apply infer_hash_spec in Hk as (_ & _ & Hlen).
    destruct (get_hash_algorithm_digest _ Hlen) as (algo & ->). now eexists.
Qed.

End Calls.

End GatewayFacts.

(** ** Loading the settings *)

Module ConfigFacts.
Import Py Server ConfigPy Terms MoreTerms.
Import PyFacts ReFacts.

(** [rstrip_chars] removes a tail of matching characters and nothing
    else. *)
Lemma rstrip_chars_tail (chars : ascii -> bool) (s : string) :
  exists tail,
    s = rstrip_chars chars s +:+ tail /\ all_chars chars tail = true.
Proof.
  induction s as [|c r (tail & E & Hall)].
  - now exists EmptyString.
  - simpl. destruct (rstrip_chars chars r) as [|c' r'] eqn:Er.
    + destruct (chars c) eqn:Ec.
      * exists (String c r). rewrite append_nil_l. split; [reflexivity|].
        simpl. rewrite Ec. rewrite append_nil_l in E. now rewrite E.
      * exists tail. rewrite append_cons, append_nil_l.
        rewrite append_nil_l in E. split; [now f_equal | exact Hall].
    + exists tail. rewrite append_cons. now rewrite <- E.
Qed.

Lemma rstrip_chars_last (chars : ascii -> bool) (s : string) (b : option ascii) :
  rstrip_chars chars s <> EmptyString ->
  exists z, last_char b (rstrip_chars chars s) = Some z /\ chars z = false.
Proof.
  revert b. induction s as [|c r IH]; intros b Hne; [now elim Hne|].
  simpl in Hne |- *. destruct (rstrip_chars chars r) as [|c' r'] eqn:E.
  - destruct (chars c) eqn:Ec; [now elim Hne|]. now exists c.
  - change (last_char b (String c (String c' r')))
      with (last_char (Some c) (String c' r')).
    apply IH. discriminate.
Qed.

Lemma rstrip_chars_no_slash (s : string) :
  ends_with "/" (rstrip_chars (Ascii.eqb "/") s) = false.
Proof.
  unfold ends_with.
  destruct (rstrip_chars (Ascii.eqb "/") s) as [|c r] eqn:E; [reflexivity|].
  destruct (rstrip_chars_last (Ascii.eqb "/") s None) as (z & Hz & Hs).
  - rewrite E. discriminate.
  - rewrite E in Hz. rewrite Hz. now rewrite Ascii.eqb_sym.
Qed.

Lemma unset_false (v : option string) :
  unset v = false <-> exists s, v = Some s /\ s <> EmptyString.
Proof.
  destruct v as [[|c r]|]; simpl; split; intros Hx; try discriminate;
    try (destruct Hx as (s & E & Hs); congruence);
    try (eexists; split; [reflexivity | discriminate]).
Qed.

Section Loading.
Context `{Float}.

(** [from_env] with both required variables set. *)
Lemma from_env_required (environ : gmap string string) (url token : string) :
  environ !! "OPENCTI_URL" = Some url -> url <> EmptyString ->
  environ !! "OPENCTI_TOKEN" = Some token -> token <> EmptyString ->
  from_env environ =
    match (if falsy (timeout_text environ) then Some float_30
           else float_of_str (timeout_text environ)) with
    | None =>
        Raise (ConfigurationError
                 ("Invalid OPENCTI_TIMEOUT value: '" +:+ timeout_text environ
                  +:+ "'. Must be a number."))
    | Some timeout_seconds =>
        Ok (Settings
              (rstrip_chars (Ascii.eqb "/") url) token
              (negb (existsb
                       (String.eqb
                          (lower (match environ !! "OPENCTI_VERIFY_SSL" with
                                  | Some v => v
                                  | None => "true"
                                  end)))
                       ["0"; "false"; "no"; "off"]))
              (match environ !! "VIRUSTOTAL_CONNECTOR_ID" with
               | Some (String c s) => Some (String c s)
               | _ => None
               end),
            timeout_seconds)
    end.
Proof.
  intros Hu Hune Ht Htne. unfold from_env, timeout_text. rewrite Hu, Ht.
  destruct url; [now elim Hune|]. destruct token; [now elim Htne|]. reflexivity.
Qed.

(** [from_env] with a required variable unset or empty. *)
Lemma from_env_missing (environ : gmap string string) :
  unset (environ !! "OPENCTI_URL") || unset (environ !! "OPENCTI_TOKEN") = true ->
  from_env environ =
    Raise (ConfigurationError
             ("Missing required OpenCTI configuration: " +:+ missing_names environ)).
Proof.
  unfold from_env, missing_names.
  destruct (unset (environ !! "OPENCTI_URL")),
    (unset (environ !! "OPENCTI_TOKEN")); try discriminate; reflexivity.
Qed.

End Loading.

End ConfigFacts.
(** ** Facts about the untyped tools *)

Module GraphFacts.
Import Py Json Server Graph GraphTerms.

Lemma differs_from_false j s : differs_from j s = false -> j = JsStr s.
Proof.
  destruct j; simpl; try discriminate.
  intros E. apply negb_false_iff, String.eqb_eq in E. now subst.
Qed.

Lemma collection_variables_built search limit :
  match search with
  | Some (String c s) =>
      <[ "search" := JsStr (String c s) ]>
        ({[ "first" := JsInt limit ]} : gmap string json)
  | _ => {[ "first" := JsInt limit ]}
  end = collection_variables search limit.
Proof.
  destruct search as [[|c s]|]; reflexivity.
Qed.

Section Calls.
Context `{Endpoint} `{QueryTexts} `{Config}.

Lemma bind_step {A B} (m : M A) (k : A -> M B) w :
  bind m k w =
  match m w with
  | (Ok a, w') => k a w'
  | (Raise e, w') => (Raise e, w')
  end.
Proof. reflexivity. Qed.

Lemma bind_lift {A B} (r : result A) (k : A -> M B) w :
  bind (lift r) k w =
  match r with
  | Ok a => k a w
  | Raise e => (Raise e, w)
  end.
Proof. unfold bind, lift. now destruct r. Qed.

Lemma graphql_query_sent q vars w :
  sent (snd (graphql_query q vars w)) =
  sent w ++ [Gql q (match vars with Some v => v | None => ∅ end)].
Proof.
  unfold graphql_query, bind, post.
  destruct (respond _ _) as [rep pf].
  destruct rep as [| |[e|] d]; reflexivity.
Qed.

Lemma except_api_sent {A} (m : M A) handler w :
  sent (snd (except_api m handler w)) = sent (snd (m w)).
Proof.
  unfold except_api. destruct (m w) as [[a|e] w']; [reflexivity|].
  now destruct e.
Qed.

Lemma except_api_ok {A} (m : M A) handler w a w' :
  except_api m handler w = (Ok a, w') <-> m w = (Ok a, w').
Proof.
  unfold except_api. destruct (m w) as [[a0|e] w0]; [tauto|].
  destruct e; split; intros E; try discriminate E; exact E.
Qed.

Lemma fetch_sent q vars handler w :
  sent (snd (except_api (graphql_query q vars) handler w)) =
  sent w ++ [Gql q (match vars with Some v => v | None => ∅ end)].
Proof. now rewrite except_api_sent, graphql_query_sent. Qed.

Lemma _build_client_ok s : get_settings = Ok s -> _build_client = Ok s.
Proof. unfold _build_client. now intros ->. Qed.

Lemma _build_client_raise e :
  get_settings = Raise e -> exists e', _build_client = Raise e'.
Proof. unfold _build_client. intros ->. destruct e; eauto. Qed.

(** *** [_execute_collection_query] *)

Lemma _execute_collection_query_sent config search limit w :
  sent (snd (_execute_collection_query config search limit w)) =
  if (limit <=? 0)%Z then sent w
  else match get_settings with
       | Ok _ =>
           sent w ++ [Gql (query config) (collection_variables search limit)]
       | Raise _ => sent w
       end.
Proof.
  unfold _execute_collection_query.
  destruct (limit <=? 0)%Z; [reflexivity|].
  rewrite bind_lift.
  destruct get_settings as [s|e] eqn:E.
  - rewrite (_build_client_ok s E), bind_step, collection_variables_built.
    pose proof (fetch_sent (query config)
                  (Some (collection_variables search limit))
                  (wrap_api_error "OpenCTI API error during query.") w) as Hs.
    destruct (except_api _ _ w) as [[data|e] w1]; simpl in Hs; [|exact Hs].
    rewrite bind_lift.
    destruct (contains data (result_key config)) as [[|]|e]; simpl;
      exact Hs.
  - destruct (_build_client_raise e E) as [e' ->]. reflexivity.
Qed.

Lemma _execute_collection_query_ok config search limit s w v w' :
  (0 < limit)%Z -> get_settings = Ok s ->
  _execute_collection_query config search limit w = (Ok v, w') <->
  exists d,
    graphql_query (query config) (Some (collection_variables search limit)) w
    = (Ok (Some d), w')
    /\ dict_get d (result_key config) = Some v.
Proof.
  intros Hl Hs. unfold _execute_collection_query.
  destruct (Z.leb_spec limit 0) as [Hle|_]; [lia|].
  rewrite bind_lift, (_build_client_ok s Hs), bind_step,
    collection_variables_built.
  set (m := graphql_query _ _).
  set (handler := wrap_api_error _).
  pose proof (fun a w1 => except_api_ok m handler w a w1) as Hex.
  destruct (except_api m handler w) as [[data|e] w1].
  - pose proof (proj1 (Hex data w1) eq_refl) as Hm. clear Hex.
    rewrite Hm, bind_lift.
    destruct data as [d|]; simpl.
    + unfold has_key. destruct (dict_get d (result_key config)) as [x|] eqn:G;
        simpl; unfold lift, raise.
      * split.
        -- intros E. injection E as <- <-. exists d. now rewrite G.
        -- intros (d' & E & G'). injection E as <- <-.
           rewrite G in G'. now injection G' as <-.
      * split; [discriminate|].
        intros (d' & E & G'). injection E as <- <-. congruence.
    + split; [discriminate|]. intros (d' & E & _). discriminate E.
  - split; [discriminate|].
    intros (d & E & _). apply Hex in E. discriminate E.
Qed.

(** *** [get_entity] *)

Lemma get_entity_loop_sent queries entity_type entity_id w :
  exists n,
    n <= length queries /\
    sent (snd (get_entity_loop queries entity_type entity_id w)) =
    sent w ++ firstn n (map (entity_request entity_id) queries).
Proof.
  revert w. induction queries as [|[key q] rest IH]; intros w.
  - exists 0. split; [lia|]. simpl. now rewrite app_nil_r.
  - assert (Hstop : forall (x : result json * world) w1,
               sent w1 = sent w ++ [Gql q {[ "id" := JsStr entity_id ]}] ->
               sent (snd x) = sent w1 ->
               exists n, n <= length ((key, q) :: rest) /\
                 sent (snd x) =
                 sent w ++ firstn n (map (entity_request entity_id)
                                       ((key, q) :: rest))).
    { intros x w1 Hw Hx. exists 1. split; [simpl; lia|].
      rewrite Hx, Hw. reflexivity. }
    assert (Hnext : forall w1,
               sent w1 = sent w ++ [Gql q {[ "id" := JsStr entity_id ]}] ->
               exists n, n <= length ((key, q) :: rest) /\
                 sent (snd (get_entity_loop rest entity_type entity_id w1)) =
                 sent w ++ firstn n (map (entity_request entity_id)
                                       ((key, q) :: rest))).
    { intros w1 Hw. destruct (IH w1) as (n & Hn & E).
      exists (S n). split; [simpl; lia|].
      rewrite E, Hw, <- app_assoc. reflexivity. }
    cbn [get_entity_loop]. rewrite bind_step.
    pose proof (fetch_sent q (Some {[ "id" := JsStr entity_id ]})
                  (wrap_api_error "Failed to fetch entity from OpenCTI.") w)
      as Hs.
    destruct (except_api _ _ w) as [[data|e] w1]; simpl in Hs.
    + rewrite bind_lift.
      destruct (data_get data key) as [result|e].
      * destruct (truthy result); [|now apply Hnext].
        rewrite bind_lift.
        destruct (json_get result "entity_type") as [fetched|e].
        -- destruct (_ && _); [now apply Hnext|].
           now apply (Hstop _ w1).
        -- now apply (Hstop _ w1).
      * now apply (Hstop _ w1).
    + now apply (Hstop _ w1).
Qed.

Lemma requests_until_stop_prefix queries entity_type entity_id pf :
  exists n,
    n <= length queries /\
    requests_until_stop entity_type entity_id queries pf =
    firstn n (map (entity_request entity_id) queries).
Proof.
  revert pf. induction queries as [|q rest IH]; intros pf.
  - now exists 0.
  - cbn [requests_until_stop].
    destruct (respond pf (entity_request entity_id q)) as [rep pf'].
    destruct (moves_on entity_type (fst q) rep).
    + destruct (IH pf') as (n & Hn & E). exists (S n).
      split; [simpl; lia|]. simpl. now rewrite E.
    + exists 1. split; [simpl; lia | reflexivity].
Qed.

(** The loop sends the next query exactly after a reply on which it moves
    on. *)
Lemma get_entity_loop_requests queries entity_type entity_id w :
  sent (snd (get_entity_loop queries entity_type entity_id w)) =
  sent w ++ requests_until_stop entity_type entity_id queries (remote w).
Proof.
  revert w. induction queries as [|[key q] rest IH]; intros w.
  - simpl. now rewrite app_nil_r.
  - cbn [get_entity_loop requests_until_stop fst].
    unfold entity_request at 1 2. cbn [snd].
    rewrite bind_step. unfold except_api, graphql_query.
    rewrite bind_step. unfold post.
    destruct (respond (remote w) (Gql q {[ "id" := JsStr entity_id ]}))
      as [rep pf].
    assert (Hnext :
              sent (snd (get_entity_loop rest entity_type entity_id
                           (World pf (sent w ++ [Gql q {[ "id" := JsStr entity_id ]}]))))
              = sent w ++ Gql q {[ "id" := JsStr entity_id ]}
                  :: requests_until_stop entity_type entity_id rest pf).
    { rewrite IH. cbn [sent remote]. now rewrite <- app_assoc. }
    destruct rep as [msg|snippet|[errors|] [| |d]]; try reflexivity.
    + exact Hnext.
    + cbn [moves_on]. unfold ret. rewrite bind_lift. cbn [data_get].
      destruct (match dict_get d key with Some v => v | None => JsNull end)
        as [|b|z|s|l|fields] eqn:Ef; cbn [truthy].
      * exact Hnext.
      * destruct b; [reflexivity | exact Hnext].
      * destruct (negb (z =? 0)%Z); [reflexivity | exact Hnext].
      * destruct (negb (falsy s)); [reflexivity | exact Hnext].
      * destruct l; [exact Hnext | reflexivity].
      * destruct fields as [|f fs]; [exact Hnext|].
        rewrite bind_lift. cbn [json_get other_type].
        destruct (_ && _); [exact Hnext | reflexivity].
Qed.

Lemma get_entity_loop_ok queries entity_type entity_id w result w' :
  get_entity_loop queries entity_type entity_id w = (Ok result, w') ->
  truthy result = true /\
  exists fetched,
    json_get result "entity_type" = Ok fetched /\
    (entity_type = "" \/ truthy fetched = false \/ fetched = JsStr entity_type).
Proof.
  revert w. induction queries as [|[key q] rest IH]; intros w.
  - discriminate.
  - cbn [get_entity_loop]. rewrite bind_step.
    destruct (except_api _ _ w) as [[data|e] w1]; [|discriminate].
    rewrite bind_lift.
    destruct (data_get data key) as [found|e]; [|discriminate].
    destruct (truthy found) eqn:T; [|apply IH].
    rewrite bind_lift.
    destruct (json_get found "entity_type") as [fetched|e] eqn:G;
      [|discriminate].
    destruct (negb (falsy entity_type) && truthy fetched
              && differs_from fetched entity_type) eqn:C; [apply IH|].
    unfold ret. intros E. injection E as <- <-.
    split; [exact T|]. exists fetched. split; [exact G|].
    apply andb_false_iff in C as [C|C].
    + apply andb_false_iff in C as [C|C].
      * left. apply negb_false_iff in C. now destruct entity_type.
      * right. now left.
    + right. right. now apply differs_from_false.
Qed.

(** *** The tools that look one entity up with a limit *)


Lemma by_entity_sent q fallback entity_id limit w :
  sent (snd (by_entity q fallback entity_id limit w)) =
  if (limit <=? 0)%Z then sent w
  else match get_settings with
       | Ok _ =>
           sent w ++
           [Gql q {[ "id" := JsStr entity_id; "first" := JsInt limit ]}]
       | Raise _ => sent w
       end.
Proof.
  unfold by_entity.
  destruct (limit <=? 0)%Z; [reflexivity|].
  rewrite bind_lift.
  destruct get_settings as [s|e] eqn:E.
  - rewrite (_build_client_ok s E), bind_step.
    pose proof (fetch_sent q
                  (Some {[ "id" := JsStr entity_id; "first" := JsInt limit ]})
                  (wrap_api_error fallback) w) as Hs.
    destruct (except_api _ _ w) as [[data|e] w1]; simpl in Hs; [|exact Hs].
    rewrite bind_lift.
    destruct (contains data "stixCoreObject") as [present|e]; [|exact Hs].
    rewrite bind_lift.
    destruct (data_get data "stixCoreObject") as [found|e]; [|exact Hs].
    destruct (_ || _); exact Hs.
  - destruct (_build_client_raise e E) as [e' ->]. reflexivity.
Qed.

(** *** [search_by_stix_id] *)

Lemma search_by_stix_id_sent stix_id w :
  sent (snd (search_by_stix_id stix_id w)) =
  if falsy (strip stix_id) then sent w
  else match get_settings with
       | Ok _ =>
           sent w ++
           [Gql SEARCH_BY_STIX_ID_QUERY {[ "stixId" := JsStr stix_id ]}]
       | Raise _ => sent w
       end.
Proof.
  unfold search_by_stix_id.
  assert (falsy stix_id || falsy (strip stix_id) = falsy (strip stix_id)) as ->.
  { destruct stix_id; [reflexivity|]. reflexivity. }
  destruct (falsy (strip stix_id)); [reflexivity|].
  rewrite bind_lift.
  destruct get_settings as [s|e] eqn:E.
  - rewrite (_build_client_ok s E), bind_step.
    pose proof (fetch_sent SEARCH_BY_STIX_ID_QUERY
                  (Some {[ "stixId" := JsStr stix_id ]})
                  (wrap_api_error "Failed to search by STIX ID in OpenCTI.") w)
      as Hs.
    destruct (except_api _ _ w) as [[data|e] w1]; simpl in Hs; [|exact Hs].
    rewrite bind_lift.
    destruct (contains data "stixDomainObject") as [present|e]; [|exact Hs].
    rewrite bind_lift.
    destruct (data_get data "stixDomainObject") as [found|e]; [|exact Hs].
    destruct (_ || _); exact Hs.
  - destruct (_build_client_raise e E) as [e' ->]. reflexivity.
Qed.

(** *** API errors *)

Lemma api_error_bind {A B} (m : M A) (k : A -> M B) w :
  api_error (fst (m w)) = false ->
  (forall a w1, api_error (fst (k a w1)) = false) ->
  api_error (fst (bind m k w)) = false.
Proof.
  intros Hm Hk. rewrite bind_step.
  destruct (m w) as [[a|e] w1]; [apply Hk | exact Hm].
Qed.

Lemma api_error_lift {A} (r : result A) w :
  api_error r = false -> api_error (fst (lift r w)) = false.
Proof. now intros. Qed.

Lemma api_error_except {A} (m : M A) fallback w :
  api_error (fst (except_api m (wrap_api_error fallback) w)) = false.
Proof.
  unfold except_api. destruct (m w) as [[a|e] w1]; [reflexivity|].
  now destruct e.
Qed.

Lemma api_error_build_client :
  (forall msg, get_settings <> Raise (OpenCTIAPIError msg)) ->
  api_error _build_client = false.
Proof.
  intros Hs. unfold _build_client.
  destruct get_settings as [s|e]; [reflexivity|].
  destruct e; try reflexivity. now elim (Hs msg).
Qed.

Lemma api_error_contains data key : api_error (contains data key) = false.
Proof. now destruct data. Qed.

Lemma api_error_data_get data key : api_error (data_get data key) = false.
Proof. now destruct data. Qed.

Lemma api_error_json_get j key : api_error (json_get j key) = false.
Proof. now destruct j. Qed.

Lemma api_error_get_entity_loop queries entity_type entity_id w :
  api_error (fst (get_entity_loop queries entity_type entity_id w)) = false.
Proof.
  revert w. induction queries as [|[key q] rest IH]; intros w; [reflexivity|].
  cbn [get_entity_loop].
  apply api_error_bind; [apply api_error_except|]. intros data w1.
  apply api_error_bind; [apply api_error_lift, api_error_data_get|].
  intros result w2.
  destruct (truthy result); [|apply IH].
  apply api_error_bind; [apply api_error_lift, api_error_json_get|].
  intros fetched w3.
  destruct (_ && _); [apply IH | reflexivity].
Qed.

End Calls.

End GraphFacts.

Import Py Re Observables Json Effects Client Server Terms MoreTerms.
Import PyFacts ReFacts ObservablesFacts DomainFacts ClientFacts ServerFacts.
Import ClassifierFacts.

(** X1. The domain test accepts exactly the host names (a label, any
    number of further labels and a final label of 2 to 63 letters, joined by
    dots) and the host names followed by one line feed. *)
Theorem domain_test_language (s : string) :
  _is_domain s = true <->
  exists body, hostname body /\ (s = body \/ s = body +:+ String LF EmptyString).
Proof. apply _is_domain_spec. Qed.

(** X2. The hash test accepts exactly the strings of length 32, 40, 64 or
    128 that consist of hexadecimal characters, or of hexadecimal characters
    followed by one final line feed (which counts in the length). *)
Theorem hash_test_language (s : string) :
  _is_hash s = true <->
  In (len s) [32; 40; 64; 128] /\
  exists w, all_chars is_hex w = true /\ (s = w \/ s = w +:+ String LF EmptyString).
Proof. apply _is_hash_spec. Qed.

(** X3. No string passes both the hash test and the domain test, so the
    order in which the classifier tries the two never decides an answer. *)
Theorem hash_and_domain_tests_disjoint (s : string) :
  _is_hash s && _is_domain s = false.
Proof.
  destruct (_is_domain s) eqn:Hd; [|apply andb_false_r].
  now rewrite (hash_and_domain_tests_disjoint_aux s Hd).
Qed.

(** X4. The classifier answers hash exactly for the strings whose trimmed
    form the address parser rejects and which is a digest: hexadecimal
    characters only, of length 32, 40, 64 or 128. *)
Theorem classified_hash_iff `{IpAddress} (s : string) :
  infer_observable_type s = Some KindHash <->
  ip_address (strip s) = None /\ hex_digest (strip s).
Proof. apply infer_hash_spec. Qed.

(** X5. The classifier answers domain exactly for the strings whose trimmed
    form the address parser rejects and which is a host name. *)
Theorem classified_domain_iff `{IpAddress} (s : string) :
  infer_observable_type s = Some KindDomain <->
  ip_address (strip s) = None /\ hostname (strip s).
Proof. apply infer_domain_spec. Qed.

Import GatewayFacts.

(** ** Match engine and gateway *)

(** X6. For a non-empty target, when the target is not "none" in any
    letter case or no candidate holds a [null] in a compared member, the scan
    returns the first candidate, in the order received, one of whose three
    fields or hash entries equals the target without regard to case, and
    [None] when there is no such candidate. *)
Theorem scan_returns_first_match (edges : list edge) (value : string) :
  value <> EmptyString ->
  (lower value <> "none" \/
   forall e n, In e edges -> candidate_of e = Some n -> null_free n) ->
  scan_edges edges (lower value) = first_match edges value.
Proof. apply scan_edges_first_match. Qed.

Lemma scan_returns_first_match_example :
  scan_edges [Edge (Val example_com); Edge (Val md5_file)]
    (lower "D41D8CD98F00B204E9800998ECF8427E")
  = first_match [Edge (Val example_com); Edge (Val md5_file)]
      "D41D8CD98F00B204E9800998ECF8427E".
Proof.
  apply (scan_returns_first_match
           [Edge (Val example_com); Edge (Val md5_file)]
           "D41D8CD98F00B204E9800998ECF8427E").
  - discriminate.
  - left. vm_compute. discriminate.
Defined.

(** X7. A lookup is one round trip: whatever the platform answers, and
    whether the lookup returns or raises, exactly the search request has
    been added to what was sent. *)
Theorem lookup_is_one_round_trip `{IpAddress} `{Remote}
  (value : string) (types : list string) (limit : Z) (w : world) :
  snd (Client.find_observable_by_value value types limit w) =
    World (snd (respond (remote w) (FindObservables value types limit)))
          (sent w ++ [FindObservables value types limit]).
Proof. apply find_observable_by_value_world. Qed.

(** X8. Whatever its outcome, the gateway sends nothing, or the search
    alone, or the search followed by one creation mutation; the mutation is
    sent only after the search has returned no match, and it is the one for
    the resolved kind. *)
Theorem gateway_request_discipline `{IpAddress} `{Remote} `{Config}
  (value : string) (value_type : option string) (w : world) :
  let w' := snd (Server.create_observable value value_type w) in
  sent w' = sent w \/
  exists kind,
    _normalize_observable_type value value_type = Ok kind /\
    (sent w' = sent w ++ [search_request value kind] \/
     exists rq w1,
       Client.find_observable_by_value (strip value) (OBSERVABLE_TYPES kind) 10 w
       = (Ok None, w1) /\
       creation_request (strip value) kind = Some rq /\
       sent w' = sent w ++ [search_request value kind; rq]).
Proof.
  cbv zeta.
  destruct (falsy value || falsy (strip value)) eqn:Hg.
  { left. unfold Server.create_observable. now rewrite Hg. }
  destruct (_normalize_observable_type value value_type) as [kind|e] eqn:Hk.
  2:{ left. unfold Server.create_observable. rewrite Hg.
      unfold bind, lift. now rewrite Hk. }
  destruct get_settings as [settings|e] eqn:Hc.
  2:{ left. unfold Server.create_observable. rewrite Hg.
      unfold bind, lift, _build_client. rewrite Hk, Hc. now destruct e. }
  right. exists kind. split; [reflexivity|].
  assert (accepted value value_type kind) as Hacc.
  { split; [exact Hg|]. split; [exact Hk|]. now exists settings. }
  rewrite (create_observable_accepted value value_type kind w Hacc).
  rewrite except_api_run.
  pose proof (find_observable_by_value_world
                (strip value) (OBSERVABLE_TYPES kind) 10 w) as Hw.
  destruct (Client.find_observable_by_value (strip value) (OBSERVABLE_TYPES kind) 10 w)
    as [[[existing|]|e] w1] eqn:Hfind; simpl in Hw.
  - left. simpl. now rewrite Hw.
  - pose proof (except_api_world (Client.create_observable (strip value) kind)
                  (wrap_api_error "Failed to create observable in OpenCTI.") w1) as Hw2.
    rewrite create_observable_world in Hw2.
    destruct (except_api _ _ w1) as [[created|e] w2]; simpl in Hw2 |- *;
      (destruct (creation_request (strip value) kind) as [rq|] eqn:Hrq;
       [right; exists rq, w1; split; [reflexivity|]; split; [reflexivity|];
        rewrite Hw2, Hw; simpl; now rewrite <- app_assoc
       |left; now rewrite Hw2, Hw]).
  - left. destruct e; simpl; now rewrite Hw.
Qed.

(** X9. When the kind was inferred by the classifier and the search
    returns no match, the client always has a creation mutation to send:
    the local failures of creation (a value that is not an address, a
    length without an algorithm) cannot occur. *)
Theorem inferred_kind_is_creatable `{IpAddress} `{Remote} `{Config}
  (value : string) (kind : ObservableKind) (w w1 : world) :
  accepted value None kind ->
  Client.find_observable_by_value (strip value) (OBSERVABLE_TYPES kind) 10 w
  = (Ok None, w1) ->
  exists rq,
    creation_request (strip value) kind = Some rq /\
    sent (snd (Server.create_observable value None w)) = sent w1 ++ [rq].
Proof.
  intros Hacc Hfind.
  assert (infer_observable_type value = Some kind) as Hk.
  { destruct Hacc as (_ & Hk & _). unfold _normalize_observable_type in Hk.
    destruct (infer_observable_type value); [now injection Hk as ->|discriminate]. }
  destruct (inferred_creation_request value kind Hk) as (rq & Hrq).
  exists rq. split; [exact Hrq|].
  rewrite (create_observable_accepted value None kind w Hacc).
  rewrite except_api_run, Hfind.
  pose proof (except_api_world (Client.create_observable (strip value) kind)
                (wrap_api_error "Failed to create observable in OpenCTI.") w1) as Hw2.
  rewrite create_observable_world, Hrq in Hw2.
  destruct (except_api _ _ w1) as [[created|e] w2]; simpl in Hw2 |- *; now rewrite Hw2.
Qed.

Lemma inferred_kind_is_creatable_example :
  exists rq,
    creation_request (H := dotted_quad) (strip "8.8.8.8") KindIp = Some rq /\
    sent (snd (Server.create_observable
                 (H := dotted_quad) (H0 := scripted) (H1 := sample_settings)
                 "8.8.8.8" None (@World scripted [found []] [])))
    = sent (@World scripted []
              [FindObservables "8.8.8.8" ["IPv4-Addr"; "IPv6-Addr"] 10]) ++ [rq].
Proof.
  refine (@inferred_kind_is_creatable dotted_quad scripted sample_settings
            "8.8.8.8" KindIp (@World scripted [found []] [])
            (@World scripted [] [FindObservables "8.8.8.8" ["IPv4-Addr"; "IPv6-Addr"] 10])
            _ _).
  - split; [vm_compute; reflexivity|]. split; [vm_compute; reflexivity|].
    eexists. reflexivity.
  - vm_compute. reflexivity.
Defined.

(** X10. When an explicit kind does not fit the value (kind ip for a
    string that is no address, kind hash for a length without an algorithm)
    and the search returns no match, the gateway fails with a [ToolError]
    and no mutation is sent. *)
Theorem unfit_explicit_kind_is_not_created `{IpAddress} `{Remote} `{Config}
  (value : string) (value_type : option string) (kind : ObservableKind)
  (w w1 : world) :
  accepted value value_type kind ->
  Client.find_observable_by_value (strip value) (OBSERVABLE_TYPES kind) 10 w
  = (Ok None, w1) ->
  creation_request (strip value) kind = None ->
  exists message,
    Server.create_observable value value_type w = (Raise (ToolError message), w1).
Proof.
  intros Hacc Hfind Hrq.
  rewrite (create_observable_accepted value value_type kind w Hacc).
  rewrite except_api_run, Hfind, except_api_run.
  destruct (create_observable_no_request (strip value) kind w1 Hrq) as (msg & ->).
  now eexists.
Qed.

Lemma unfit_explicit_kind_example :
  exists message,
    Server.create_observable
      (H := dotted_quad) (H0 := scripted) (H1 := sample_settings)
      "example.com" (Some "HASH") (@World scripted [found []] [])
    = (Raise (ToolError message),
       @World scripted [] [FindObservables "example.com" ["Artifact"; "StixFile"] 10]).
Proof.
  refine (@unfit_explicit_kind_is_not_created dotted_quad scripted sample_settings
            "example.com" (Some "HASH") KindHash (@World scripted [found []] [])
            (@World scripted [] [FindObservables "example.com" ["Artifact"; "StixFile"] 10])
            _ _ _).
  - split; [vm_compute; reflexivity|]. split; [vm_compute; reflexivity|].
    eexists. reflexivity.
  - vm_compute. reflexivity.
  - vm_compute. reflexivity.
Defined.

(** X11. An explicit kind is read without regard to letter case and
    without looking at the value: it resolves to a kind exactly when its
    lower-cased form is that kind's name, whatever the value is. *)
Theorem explicit_kind_resolution `{IpAddress}
  (value value_type : string) (kind : ObservableKind) :
  value_type <> EmptyString ->
  (_normalize_observable_type value (Some value_type) = Ok kind <->
   lower value_type = kind_name kind).
Proof.
  intros Hne. destruct value_type as [|c r]; [now elim Hne|].
  unfold _normalize_observable_type. split.
  - destruct (kind_of_name (lower (String c r))) as [k|] eqn:E; [|discriminate].
    intros [= <-]. now apply kind_of_name_inv.
  - intros ->. now rewrite kind_of_name_kind_name.
Qed.

Lemma explicit_kind_resolution_example :
  _normalize_observable_type (H := dotted_quad) "not a value!!" (Some "Domain")
    = Ok KindDomain <->
  lower "Domain" = kind_name KindDomain.
Proof.
  apply (@explicit_kind_resolution dotted_quad "not a value!!" "Domain" KindDomain).
  discriminate.
Defined.

(** X12. Whatever its outcome, the enrichment tool sends nothing, or the
    search alone, or the search followed by one enrichment request; that
    request names the identifier of the record the search matched and the
    configured connector.  It never sends a creation mutation. *)
Theorem enrichment_request_discipline `{IpAddress} `{Remote} `{Config}
  (value : string) (value_type : option string) (w : world) :
  let w' := snd (ask_virustotal_enrichment value value_type w) in
  sent w' = sent w \/
  exists kind,
    _normalize_observable_type value value_type = Ok kind /\
    (sent w' = sent w ++ [search_request value kind] \/
     exists settings connector record id w1,
       get_settings = Ok settings /\
       virustotal_connector_id settings = Some connector /\
       Client.find_observable_by_value (strip value) (OBSERVABLE_TYPES kind) 10 w
       = (Ok (Some record), w1) /\
       attrs record !! "id" = Some id /\
       sent w' = sent w ++ [search_request value kind; AskEnrichment id connector]).
Proof.
  cbv zeta. unfold ask_virustotal_enrichment.
  destruct (falsy value || falsy (strip value)) eqn:Hg; [now left|].
  destruct get_settings as [settings|e] eqn:Hc; [|now left].
  rewrite bind_lift_Ok.
  destruct (virustotal_connector_id settings) as [[|c cs]|] eqn:Hv;
    [now left | | now left].
  destruct (_normalize_observable_type value value_type) as [kind|e] eqn:Hk;
    [|now left].
  rewrite bind_lift_Ok. unfold _build_client. rewrite Hc, bind_lift_Ok.
  right. exists kind. split; [reflexivity|].
  rewrite bind_run, except_api_run.
  pose proof (find_observable_by_value_world
                (strip value) (OBSERVABLE_TYPES kind) 10 w) as Hw.
  destruct (Client.find_observable_by_value (strip value) (OBSERVABLE_TYPES kind) 10 w)
    as [[[record|]|e] w1] eqn:Hfind; simpl in Hw.
  - destruct (attrs record !! "id") as [id|] eqn:Hid.
    + right. exists settings, (String c cs), record, id, w1.
      repeat (split; [reflexivity|]).
      rewrite bind_run.
      pose proof (except_api_world (ask_enrichment id (String c cs))
                    (wrap_api_error "Failed to request enrichment from OpenCTI.") w1)
        as Hw2.
      rewrite ask_enrichment_world in Hw2.
      destruct (except_api _ _ w1) as [[work|e] w2]; simpl in Hw2 |- *;
        rewrite Hw2, Hw; simpl; now rewrite <- app_assoc.
    + left. simpl. now rewrite Hw.
  - left. simpl. now rewrite Hw.
  - left. destruct e; simpl; now rewrite Hw.
Qed.

(** X13. A successful enrichment reports the work identifier the platform
    returned, the configured connector, and the matched record: its
    identifier, its type, and the value picked by the fallback chain
    ([observable_value], else [value], else [name], else the input). *)
Theorem enrichment_result_shape `{IpAddress} `{Remote} `{Config}
  (value : string) (value_type : option string) (w w' : world)
  (r : enrichment_result) :
  ask_virustotal_enrichment value value_type w = (Ok r, w') ->
  exists kind settings record w1,
    _normalize_observable_type value value_type = Ok kind /\
    get_settings = Ok settings /\
    virustotal_connector_id settings = Some (connector_id r) /\
    Client.find_observable_by_value (strip value) (OBSERVABLE_TYPES kind) 10 w
    = (Ok (Some record), w1) /\
    attrs record !! "id" = Some (Server.id (enriched r)) /\
    Server.entity_type (enriched r) = get (attrs record) "entity_type" /\
    Server.value (enriched r) = fallback_chain record value /\
    Client.ask_enrichment (Server.id (enriched r)) (connector_id r) w1
    = (Ok (work_id r), w').
Proof.
  unfold ask_virustotal_enrichment.
  destruct (falsy value || falsy (strip value)); [discriminate|].
  destruct get_settings as [settings|e] eqn:Hc; [|discriminate].
  rewrite bind_lift_Ok.
  destruct (virustotal_connector_id settings) as [[|c cs]|] eqn:Hv; try discriminate.
  destruct (_normalize_observable_type value value_type) as [kind|e] eqn:Hk;
    [|discriminate].
  rewrite bind_lift_Ok. unfold _build_client. rewrite Hc, bind_lift_Ok.
  rewrite bind_run, except_api_run.
  destruct (Client.find_observable_by_value (strip value) (OBSERVABLE_TYPES kind) 10 w)
    as [[[record|]|[]] w1] eqn:Hfind; try discriminate.
  destruct (attrs record !! "id") as [id|] eqn:Hid; [|discriminate].
  rewrite bind_run.
  destruct (except_api (ask_enrichment id (String c cs)) _ w1)
    as [[work|e] w2] eqn:Hask; [|discriminate].
  apply except_api_Ok in Hask.
  intros [= <- <-]. cbn [connector_id enriched work_id Server.id Server.value
                           Server.entity_type].
  exists kind, settings, record, w1.
  repeat (split; [first [reflexivity | assumption]|]).
  split; [|exact Hask].
  unfold fallback_chain. now rewrite !or_present.
Qed.

(** X14. When the settings cannot be loaded, the two tools report it
    differently: the enrichment tool lets the [ConfigurationError] through,
    even before it looks at the kind, while the gateway, once the kind is
    resolved, turns it into a [ToolError] with the same message.  Neither
    sends anything. *)
Theorem configuration_failure_surfaces `{IpAddress} `{Remote} `{Config}
  (value : string) (value_type : option string) (message : string) (w : world) :
  falsy value || falsy (strip value) = false ->
  get_settings = Raise (ConfigurationError message) ->
  ask_virustotal_enrichment value value_type w
  = (Raise (ConfigurationError message), w) /\
  forall kind,
    _normalize_observable_type value value_type = Ok kind ->
    Server.create_observable value value_type w = (Raise (ToolError message), w).
Proof.
  intros Hg Hc. split.
  - unfold ask_virustotal_enrichment. rewrite Hg. unfold bind, lift. now rewrite Hc.
  - intros kind Hk. unfold Server.create_observable. rewrite Hg.
    unfold bind, lift, _build_client. now rewrite Hk, Hc.
Qed.

Lemma enrichment_result_shape_example :
  exists kind settings record w1,
    _normalize_observable_type (H := dotted_quad) "example.com" None = Ok kind /\
    get_settings (Config := sample_settings) = Ok settings /\
    virustotal_connector_id settings = Some "vt-connector" /\
    Client.find_observable_by_value (H0 := scripted)
      (strip "example.com") (OBSERVABLE_TYPES kind) 10
      (@World scripted [found [Edge (Val example_com)]; enrichment_started "work-1"] [])
    = (Ok (Some record), w1) /\
    attrs record !! "id" = Some (JStr "obs-1") /\
    JStr "Domain-Name" = get (attrs record) "entity_type" /\
    "EXAMPLE.com" = fallback_chain record "example.com" /\
    Client.ask_enrichment (H0 := scripted) (JStr "obs-1") "vt-connector" w1
    = (Ok (JStr "work-1"),
       @World scripted []
         [FindObservables "example.com" ["Domain-Name"] 10;
          AskEnrichment (JStr "obs-1") "vt-connector"]).
Proof.
  apply (@enrichment_result_shape dotted_quad scripted sample_settings
           "example.com" None
           (@World scripted [found [Edge (Val example_com)]; enrichment_started "work-1"] [])
           (@World scripted []
              [FindObservables "example.com" ["Domain-Name"] 10;
               AskEnrichment (JStr "obs-1") "vt-connector"])
           (EnrichmentResult (JStr "work-1") "vt-connector"
              (ObservableView (JStr "obs-1") (JStr "Domain-Name") "EXAMPLE.com"))).
  vm_compute. reflexivity.
Defined.

Lemma configuration_failure_example :
  ask_virustotal_enrichment (H := dotted_quad) (H0 := scripted) (H1 := no_settings)
    "example.com" None (@World scripted [] [])
  = (Raise (ConfigurationError
              "Missing required OpenCTI configuration: OPENCTI_URL, OPENCTI_TOKEN"),
     @World scripted [] []) /\
  forall kind,
    _normalize_observable_type (H := dotted_quad) "example.com" None = Ok kind ->
    Server.create_observable (H := dotted_quad) (H0 := scripted) (H1 := no_settings)
      "example.com" None (@World scripted [] [])
    = (Raise (ToolError
                "Missing required OpenCTI configuration: OPENCTI_URL, OPENCTI_TOKEN"),
       @World scripted [] []).
Proof.
  apply (@configuration_failure_surfaces dotted_quad scripted no_settings
           "example.com" None
           "Missing required OpenCTI configuration: OPENCTI_URL, OPENCTI_TOKEN"
           (@World scripted [] [])).
  - vm_compute. reflexivity.
  - vm_compute. reflexivity.
Defined.

Import ConfigPy ConfigFacts.

(** ** Settings *)

(** X15. The settings load exactly when [OPENCTI_URL] and [OPENCTI_TOKEN]
    are both set and not empty and [OPENCTI_TIMEOUT], once trimmed, is empty
    or a number. *)
Theorem settings_load_iff `{Float} (environ : gmap string string) :
  (exists loaded, from_env environ = Ok loaded) <->
  unset (environ !! "OPENCTI_URL") = false /\
  unset (environ !! "OPENCTI_TOKEN") = false /\
  (timeout_text environ = EmptyString \/
   float_of_str (timeout_text environ) <> None).
Proof.
  destruct (unset (environ !! "OPENCTI_URL")) eqn:Hu.
  { rewrite from_env_missing by now rewrite Hu.
    split; [now intros (? & [=]) | now intros ([=] & _)]. }
  destruct (unset (environ !! "OPENCTI_TOKEN")) eqn:Ht.
  { rewrite from_env_missing by (rewrite Hu, Ht; reflexivity).
    split; [now intros (? & [=]) | now intros (_ & [=] & _)]. }
  apply unset_false in Hu as (url & Hu & Hune).
  apply unset_false in Ht as (token & Ht & Htne).
  rewrite (from_env_required environ url token Hu Hune Ht Htne).
  destruct (timeout_text environ) as [|c r] eqn:Et; cbn [falsy].
  - split; [now auto | intros _; now eexists].
  - destruct (float_of_str (String c r)) as [t|]; split.
    + intros _. split; [reflexivity|]. split; [reflexivity|]. now right.
    + intros _. now eexists.
    + now intros (? & [=]).
    + intros (_ & _ & [[=] | Hn]). now elim Hn.
Qed.

(** X16. Loaded settings hold the URL without its trailing slashes and
    nothing else removed (so possibly empty), the token as given, a
    connector identifier that is never the empty string and is missing
    exactly when the variable is unset or empty, TLS verification switched
    off exactly when [OPENCTI_VERIFY_SSL] is 0, false, no or off in any
    letter case, and as timeout 30.0 when the trimmed text is empty and
    otherwise the number it denotes. *)
Theorem loaded_settings_shape `{Float}
  (environ : gmap string string) (settings : OpenCTISettings) (timeout : pyfloat) :
  from_env environ = Ok (settings, timeout) ->
  (exists url slashes,
     environ !! "OPENCTI_URL" = Some url /\
     url = base_url settings +:+ slashes /\
     all_chars (Ascii.eqb "/") slashes = true /\
     ends_with "/" (base_url settings) = false) /\
  environ !! "OPENCTI_TOKEN" = Some (api_token settings) /\
  virustotal_connector_id settings <> Some EmptyString /\
  (virustotal_connector_id settings = None <->
   unset (environ !! "VIRUSTOTAL_CONNECTOR_ID") = true) /\
  (verify_ssl settings = false <->
   exists v, environ !! "OPENCTI_VERIFY_SSL" = Some v /\
             In (lower v) ["0"; "false"; "no"; "off"]) /\
  (if falsy (timeout_text environ) then timeout = float_30
   else float_of_str (timeout_text environ) = Some timeout).
Proof.
  intros Hload.
  destruct (unset (environ !! "OPENCTI_URL")) eqn:Hu.
  { rewrite from_env_missing in Hload by now rewrite Hu. discriminate. }
  destruct (unset (environ !! "OPENCTI_TOKEN")) eqn:Ht.
  { rewrite from_env_missing in Hload by (rewrite Hu, Ht; reflexivity).
    discriminate. }
  apply unset_false in Hu as (url & Hu & Hune).
  apply unset_false in Ht as (token & Ht & Htne).
  rewrite (from_env_required environ url token Hu Hune Ht Htne) in Hload.
  destruct (if falsy (timeout_text environ) then Some float_30
            else float_of_str (timeout_text environ)) as [t|] eqn:Etime;
    [|discriminate].
  injection Hload as <- <-.
  cbn [base_url api_token verify_ssl virustotal_connector_id].
  split; [|split; [exact Ht|split; [|split; [|split]]]].
  - destruct (rstrip_chars_tail (Ascii.eqb "/") url) as (tail & E & Hall).
    exists url, tail. split; [exact Hu|]. split; [exact E|]. split; [exact Hall|].
    apply rstrip_chars_no_slash.
  - now destruct (environ !! "VIRUSTOTAL_CONNECTOR_ID") as [[|c s]|].
  - now destruct (environ !! "VIRUSTOTAL_CONNECTOR_ID") as [[|c s]|].
  - rewrite negb_false_iff. cbn [existsb In].
    rewrite !orb_true_iff, !String.eqb_eq.
    destruct (environ !! "OPENCTI_VERIFY_SSL") as [v|]; split.
    + intros Hx. exists v. split; [reflexivity|].
      intuition (first [discriminate | auto using eq_sym]).
    + intros (v' & [= <-] & Hin).
      intuition (first [discriminate | auto using eq_sym]).
    + change (lower "true") with "true". intuition discriminate.
    + now intros (v & [=] & _).
  - destruct (falsy (timeout_text environ)); [now injection Etime | exact Etime].
Qed.

Lemma loaded_settings_shape_example :
  (exists url slashes,
     sample_environ !! "OPENCTI_URL" = Some url /\
     url = "https://opencti.example" +:+ slashes /\
     all_chars (Ascii.eqb "/") slashes = true /\
     ends_with "/" "https://opencti.example" = false) /\
  sample_environ !! "OPENCTI_TOKEN" = Some "token" /\
  @None string <> Some EmptyString /\
  (@None string = None <->
   unset (sample_environ !! "VIRUSTOTAL_CONNECTOR_ID") = true) /\
  (false = false <->
   exists v, sample_environ !! "OPENCTI_VERIFY_SSL" = Some v /\
             In (lower v) ["0"; "false"; "no"; "off"]) /\
  (if falsy (timeout_text sample_environ) then 45%N = 30%N
   else float_of_str (Float := decimal_seconds) (timeout_text sample_environ)
        = Some 45%N).
Proof.
  apply (@loaded_settings_shape decimal_seconds sample_environ
           (Settings "https://opencti.example" "token" false None) 45%N).
  vm_compute. reflexivity.
Defined.

(** X17. When [OPENCTI_URL] or [OPENCTI_TOKEN] is unset or empty, loading
    fails with a [ConfigurationError] that names exactly the missing ones,
    the URL first; this takes precedence over a timeout that is not a
    number. *)
Theorem missing_variables_reported `{Float} (environ : gmap string string) :
  unset (environ !! "OPENCTI_URL") || unset (environ !! "OPENCTI_TOKEN") = true ->
  from_env environ =
    Raise (ConfigurationError
             ("Missing required OpenCTI configuration: " +:+ missing_names environ)).
Proof. apply from_env_missing. Qed.

Lemma missing_variables_reported_example :
  from_env (H := decimal_seconds)
    {[ "OPENCTI_URL" := "https://opencti.example"; "OPENCTI_TOKEN" := "";
       "OPENCTI_TIMEOUT" := "soon" ]}
  = Raise (ConfigurationError
             ("Missing required OpenCTI configuration: "
              +:+ missing_names
                    {[ "OPENCTI_URL" := "https://opencti.example";
                       "OPENCTI_TOKEN" := ""; "OPENCTI_TIMEOUT" := "soon" ]})).
Proof.
  apply (@missing_variables_reported decimal_seconds
           {[ "OPENCTI_URL" := "https://opencti.example"; "OPENCTI_TOKEN" := "";
              "OPENCTI_TIMEOUT" := "soon" ]}).
  vm_compute. reflexivity.
Defined.
(** ** The untyped tools *)

Module GraphProperties.
Import Py Json Server Graph GraphTerms GraphFacts.

(** X18. A collection query sends nothing when the limit is not positive
    or the settings do not load; otherwise it sends exactly one request,
    the configured query with [first] set to the limit and [search] set
    only when a non-empty search text is given, whatever comes back. *)
Theorem collection_query_request `{Endpoint} `{Config}
  (config : CollectionQuery) (search : option string) (limit : Z) (w : world) :
  sent (snd (_execute_collection_query config search limit w)) =
  if (limit <=? 0)%Z then sent w
  else match get_settings with
       | Ok _ =>
           sent w ++ [Gql (query config) (collection_variables search limit)]
       | Raise _ => sent w
       end.
Proof. apply _execute_collection_query_sent. Qed.

(** X19. With a positive limit and loaded settings, a collection query
    returns a value exactly when the response carries no error and its
    data has the result key; the value is what stands under the key,
    whatever it is: a null or empty collection is returned, not reported
    as missing. *)
Theorem collection_query_result `{Endpoint} `{Config}
  (config : CollectionQuery) (search : option string) (limit : Z)
  (settings : OpenCTISettings) (w w' : world) (v : json) :
  (0 < limit)%Z ->
  get_settings = Ok settings ->
  _execute_collection_query config search limit w = (Ok v, w') <->
  exists d,
    graphql_query (query config) (Some (collection_variables search limit)) w
    = (Ok (Some d), w')
    /\ dict_get d (result_key config) = Some v.
Proof. apply _execute_collection_query_ok. Qed.

Lemma collection_query_result_null :
  _execute_collection_query (H := scripted_endpoint) (H1 := loaded)
    indicators (Some "") 5
    (@World scripted_endpoint [data_of [("indicators", JsNull)]] [])
  = (Ok JsNull,
     @World scripted_endpoint [] [Gql "query Indicators" {[ "first" := JsInt 5 ]}])
  <->
  exists d,
    graphql_query (H := scripted_endpoint) "query Indicators"
      (Some (collection_variables (Some "") 5))
      (@World scripted_endpoint [data_of [("indicators", JsNull)]] [])
    = (Ok (Some d),
       @World scripted_endpoint [] [Gql "query Indicators" {[ "first" := JsInt 5 ]}])
    /\ dict_get d "indicators" = Some JsNull.
Proof.
  apply (@collection_query_result scripted_endpoint loaded indicators (Some "") 5
           (Settings "https://opencti.example" "token" true None)).
  - lia.
  - reflexivity.
Defined.

(** X20. [get_entity] sends its queries in the fixed order core object,
    core relationship, cyber observable, each with the entity identifier
    as its only variable, and stops at the first result it accepts or call
    that fails: it sends the next query exactly when the reply to the last
    one is free of errors and holds, under the result key, nothing truthy
    or an object of another type than the requested one.  So what it has
    sent on return is a prefix of these three requests, and nothing when
    the settings do not load. *)
Theorem entity_lookup_requests `{Endpoint} `{QueryTexts} `{Config}
  (entity_type entity_id : string) (w : world) :
  sent (snd (get_entity entity_type entity_id w)) =
  sent w ++
  match get_settings with
  | Ok _ => requests_until_stop entity_type entity_id entity_queries (remote w)
  | Raise _ => []
  end /\
  exists n,
    n <= 3 /\
    sent (snd (get_entity entity_type entity_id w)) =
    sent w ++ firstn n (map (entity_request entity_id) entity_queries).
Proof.
  unfold get_entity. rewrite bind_lift.
  destruct get_settings as [s|e] eqn:E.
  - rewrite (_build_client_ok s E). fold entity_queries. split.
    + apply get_entity_loop_requests.
    + rewrite get_entity_loop_requests.
      destruct (requests_until_stop_prefix entity_queries entity_type entity_id
                  (remote w)) as (n & Hn & ->).
      now exists n.
  - destruct (_build_client_raise e E) as [e' ->]. split.
    + simpl. now rewrite app_nil_r.
    + exists 0. split; [lia|]. simpl. now rewrite app_nil_r.
Qed.

(** X21. Whatever [get_entity] returns is a non-empty object, and its
    [entity_type] is the requested type unless no type was requested or the
    object carries none: an entity of another type is never returned. *)
Theorem entity_lookup_type_guard `{Endpoint} `{QueryTexts} `{Config}
  (entity_type entity_id : string) (w w' : world) (result : json) :
  get_entity entity_type entity_id w = (Ok result, w') ->
  truthy result = true /\
  exists fetched,
    json_get result "entity_type" = Ok fetched /\
    (entity_type = "" \/ truthy fetched = false \/ fetched = JsStr entity_type).
Proof.
  unfold get_entity. rewrite bind_lift.
  destruct _build_client as [s|e]; [|discriminate].
  apply get_entity_loop_ok.
Qed.

Lemma entity_lookup_type_guard_example :
  truthy (JsDict [("id", JsStr "x")]) = true /\
  exists fetched,
    json_get (JsDict [("id", JsStr "x")]) "entity_type" = Ok fetched /\
    ("Malware" = "" \/ truthy fetched = false \/ fetched = JsStr "Malware").
Proof.
  apply (@entity_lookup_type_guard scripted_endpoint short_texts loaded
           "Malware" "id-1"
           (@World scripted_endpoint
              [data_of [("stixCoreObject", JsDict [("entity_type", JsStr "Report")])];
               data_of [("stixCoreRelationship", JsNull)];
               data_of [("stixCyberObservable", JsDict [("id", JsStr "x")])]] [])
           (@World scripted_endpoint []
              (map (entity_request "id-1") (entity_queries (H := short_texts))))).
  vm_compute. reflexivity.
Defined.



(** X23. Each of these five tools sends nothing when the limit is not
    positive or the settings do not load, and otherwise exactly one
    request: its own query with the entity identifier and the limit. *)
Theorem by_entity_request `{Endpoint} `{QueryTexts} `{Config}
  (entity_id : string) (limit : Z) (w : world) :
  Forall
    (fun '(tool, q) =>
       sent (snd (tool entity_id limit w)) =
       if (limit <=? 0)%Z then sent w
       else match get_settings with
            | Ok _ =>
                sent w ++
                [Gql q {[ "id" := JsStr entity_id; "first" := JsInt limit ]}]
            | Raise _ => sent w
            end)
    by_entity_tools.
Proof.
  unfold by_entity_tools.
  repeat (constructor; [apply by_entity_sent|]).
  constructor.
Qed.

(** X24. [search_by_stix_id] sends nothing for an identifier that is empty
    or blank, or when the settings do not load; otherwise it sends exactly
    one request, whose [stixId] is the identifier as given, not trimmed. *)
Theorem stix_lookup_request `{Endpoint} `{QueryTexts} `{Config}
  (stix_id : string) (w : world) :
  sent (snd (search_by_stix_id stix_id w)) =
  if falsy (strip stix_id) then sent w
  else match get_settings with
       | Ok _ =>
           sent w ++
           [Gql SEARCH_BY_STIX_ID_QUERY {[ "stixId" := JsStr stix_id ]}]
       | Raise _ => sent w
       end.
Proof. apply search_by_stix_id_sent. Qed.

(** X25. Provided loading the settings does not itself raise one, the
    client's [OpenCTIAPIError] never leaves a collection query,
    [get_entity], [execute_graphql] or [search_by_stix_id]: on every path
    it has been turned into a [ToolError] first. *)
Theorem api_errors_never_escape `{Endpoint} `{QueryTexts} `{Config}
  (config : CollectionQuery) (search : option string) (limit : Z)
  (entity_type entity_id query stix_id : string)
  (variables : option (gmap string json)) (w : world) :
  (forall msg, get_settings <> Raise (OpenCTIAPIError msg)) ->
  api_error (fst (_execute_collection_query config search limit w)) = false /\
  api_error (fst (get_entity entity_type entity_id w)) = false /\
  api_error (fst (execute_graphql query variables w)) = false /\
  api_error (fst (search_by_stix_id stix_id w)) = false.
Proof.
  intros Hs. pose proof (api_error_build_client Hs) as Hb.
  split; [|split; [|split]].
  - unfold _execute_collection_query.
    destruct (limit <=? 0)%Z; [reflexivity|].
    apply api_error_bind; [now apply api_error_lift|]. intros _ w1.
    apply api_error_bind; [apply api_error_except|]. intros data w2.
    apply api_error_bind; [apply api_error_lift, api_error_contains|].
    intros present w3.
    destruct (negb present); [reflexivity|].
    apply api_error_lift, api_error_data_get.
  - unfold get_entity.
    apply api_error_bind; [now apply api_error_lift|]. intros _ w1.
    apply api_error_get_entity_loop.
  - unfold execute_graphql.
    apply api_error_bind; [now apply api_error_lift|]. intros _ w1.
    apply api_error_except.
  - unfold search_by_stix_id.
    destruct (_ || _); [reflexivity|].
    apply api_error_bind; [now apply api_error_lift|]. intros _ w1.
    apply api_error_bind; [apply api_error_except|]. intros data w2.
    apply api_error_bind; [apply api_error_lift, api_error_contains|].
    intros present w3.
    apply api_error_bind; [apply api_error_lift, api_error_data_get|].
    intros found w4.
    destruct (_ || _); reflexivity.
Qed.

Lemma api_errors_never_escape_example :
  api_error (fst (_execute_collection_query (H := scripted_endpoint) (H1 := loaded)
                    indicators None 5
                    (@World scripted_endpoint [Payload (Some "[...]") Null] [])))
  = false /\
  api_error (fst (get_entity (H := scripted_endpoint) (H0 := short_texts)
                    (H1 := loaded) "Malware" "id-1"
                    (@World scripted_endpoint [Payload (Some "[...]") Null] [])))
  = false /\
  api_error (fst (execute_graphql (H := scripted_endpoint) (H1 := loaded)
                    "query Me" None
                    (@World scripted_endpoint [Payload (Some "[...]") Null] [])))
  = false /\
  api_error (fst (search_by_stix_id (H := scripted_endpoint) (H0 := short_texts)
                    (H1 := loaded) "malware--1"
                    (@World scripted_endpoint [Payload (Some "[...]") Null] [])))
  = false.
Proof.
  apply (@api_errors_never_escape scripted_endpoint short_texts loaded
           indicators None 5 "Malware" "id-1" "query Me" "malware--1" None
           (@World scripted_endpoint [Payload (Some "[...]") Null] [])).
  intros msg. discriminate.
Defined.

End GraphProperties.
